(** * sample_parser: lexer, recursive-descent parser and PySpark transformer

    A shallow embedding of [lexer.py], [parser.py] and [transformer.py].

    Conventions of the embedding.
    - Python [str] is [string]; source texts are taken to be ASCII, so that
      the regular-expression classes [\w] and [\d] are the ASCII ones.
    - Python objects that flow through the AST and the generator ([None],
      [int], [str], [list], [dict]) are the type [pyobj]; a [dict] is an
      association list in insertion order, as the traversal order of
      [dict.values()] matters to [get_source_table].
    - Python exceptions are the type [exn]; a computation that may raise is a
      [result].  [OutOfFuel] is not a Python outcome: it marks the end of the
      recursion budget of the parser model.  The recursion limit of the
      Python interpreter is not modelled.
    - Python [int] is [Z].  The interpreter bounds the number of digits of a
      conversion between [int] and [str] ([int_max_str_digits]): the bound
      is modelled in [int], where the parser converts the text of a NUMBER
      token; [str] of an integer is its decimal text without a bound. *)

From Stdlib Require Import String Ascii List ZArith Bool Arith Lia DecimalString
  DecimalPos.
Import ListNotations.

#[local] Open Scope list_scope.
#[local] Open Scope string_scope.

(** ** Python values and exceptions *)

#[local] Unset Elimination Schemes.
Inductive pyobj : Type :=
| PNone
| PInt (z : Z)
| PStr (s : string)
| PList (l : list pyobj)
| PDict (d : list (string * pyobj)).
#[local] Set Elimination Schemes.

Inductive TokenType : Type :=
| STRING | NUMBER | LOGICAL_OR | LOGICAL_AND
| OPENING_PARENTHESIS | CLOSING_PARENTHESIS
| OPENING_SQUARE_BRACKET | CLOSING_SQUARE_BRACKET
| OPENING_CURLY_BRACKET | CLOSING_CURLY_BRACKET
| COMPARISON_OPERATOR | ADDITIVE_OPERATOR | MULTIPLICATIVE_OPERATOR
| COLON | KEYWORD | LOGICAL_OPERATOR | COMMA | DOT | IDENTIFIER
| EQUALS | EQUALITY | FILTER | MODIFIER | NULL | FAT_ARROW
| JOINS | UNIONS | OVER | MEMBERSHIP_OPERATOR.

Definition TokenType_eq_dec (a b : TokenType) : {a = b} + {a <> b}.
Proof. decide equality. Defined.

Definition TokenType_eqb (a b : TokenType) : bool :=
  if TokenType_eq_dec a b then true else false.

Inductive exn : Type :=
| SyntaxError (expected : TokenType)
| EOFError
| AttributeError
| KeyError
| IndexError
| TypeError
| ValueError
| OutOfFuel.

Inductive result (A : Type) : Type :=
| Ok (a : A)
| Raise (e : exn).
Arguments Ok {A} a.
Arguments Raise {A} e.

Definition bind {A B : Type} (m : result A) (f : A -> result B) : result B :=
  match m with
  | Ok a => f a
  | Raise e => Raise e
  end.

Declare Scope py_scope.
Delimit Scope py_scope with py.
Notation "x <- m ;; k" := (bind m (fun x => k))
  (at level 61, m at next level, right associativity) : py_scope.
#[local] Open Scope py_scope.

Fixpoint mapM {A B : Type} (f : A -> result B) (l : list A) : result (list B) :=
  match l with
  | [] => Ok []
  | x :: tl => y <- f x ;; ys <- mapM f tl ;; Ok (y :: ys)
  end.

(** ** Characters and strings *)

Definition dquote : ascii := ascii_of_nat 34.
Definition squote : ascii := ascii_of_nat 39.
Definition backslash : ascii := ascii_of_nat 92.
Definition newline : string := String (ascii_of_nat 10) EmptyString.

Definition between (lo hi : nat) (c : ascii) : bool :=
  let n := nat_of_ascii c in (Nat.leb lo n) && (Nat.leb n hi).

(** [\d] and [\w] on ASCII. *)
Definition is_digit (c : ascii) : bool := between 48 57 c.
Definition is_word (c : ascii) : bool :=
  is_digit c || between 65 90 c || between 97 122 c || Ascii.eqb c "_".
(** The class of the two quote characters. *)
Definition is_quote (c : ascii) : bool := Ascii.eqb c squote || Ascii.eqb c dquote.

Fixpoint string_drop (n : nat) (s : string) : string :=
  match n, s with
  | S k, String _ s' => string_drop k s'
  | _, _ => s
  end.

Fixpoint string_take (n : nat) (s : string) : string :=
  match n, s with
  | S k, String c s' => String c (string_take k s')
  | _, _ => EmptyString
  end.

Definition head_char (s : string) : option ascii :=
  match s with
  | String c _ => Some c
  | EmptyString => None
  end.

(** [sep.join(l)] *)
Fixpoint join (sep : string) (l : list string) : string :=
  match l with
  | [] => ""
  | [x] => x
  | x :: tl => x ++ sep ++ join sep tl
  end.

(** [sub in s] on strings. *)
Fixpoint contains (sub s : string) : bool :=
  String.prefix sub s ||
  match s with
  | String _ s' => contains sub s'
  | EmptyString => false
  end.

(** [s.split(".")] *)
Fixpoint split_on (sep : ascii) (cur : string) (s : string) : list string :=
  match s with
  | EmptyString => [cur]
  | String c s' =>
      if Ascii.eqb c sep then cur :: split_on sep "" s'
      else split_on sep (cur ++ String c "") s'
  end.

Definition split (sep : ascii) (s : string) : list string := split_on sep "" s.

(** ** lexer.py *)

Record Token : Type := mkToken { type : TokenType; value : string }.

(** The fragment of regular expressions that [token_spec] uses.  A pattern is
    a sequence of atoms; a rule is an ordered alternation of patterns. *)
Inductive atom : Type :=
| Bnd                          (* \b *)
| Chr (c : ascii)              (* one literal character *)
| Cls (p : ascii -> bool)      (* one character of a class *)
| Plus (p : ascii -> bool).    (* one or more characters of a class *)

Definition lit (s : string) : list atom := map Chr (list_ascii_of_string s).
(** [\bs\b] *)
Definition word (s : string) : list atom := Bnd :: (lit s ++ [Bnd])%list.

Definition token_spec : list (list (list atom) * TokenType) :=
  [ ([word "in"], MEMBERSHIP_OPERATOR);
    ([lit "=>"], FAT_ARROW);
    ([lit ":"], COLON);
    ([word "or"], LOGICAL_OR);
    ([word "and"], LOGICAL_AND);
    ([lit ">"; lit ">="; lit "<"; lit "<="; lit "=="; lit "!="], COMPARISON_OPERATOR);
    ([lit "*"; lit "/"], MULTIPLICATIVE_OPERATOR);
    ([lit "+"; lit "-"], ADDITIVE_OPERATOR);
    ([lit "=="], EQUALITY);
    ([lit "="], EQUALS);
    ([lit "."], DOT);
    ([lit ","], COMMA);
    ([lit "["], OPENING_SQUARE_BRACKET);
    ([lit "]"], CLOSING_SQUARE_BRACKET);
    ([lit "("], OPENING_PARENTHESIS);
    ([lit ")"], CLOSING_PARENTHESIS);
    ([lit "{"], OPENING_CURLY_BRACKET);
    ([lit "}"], CLOSING_CURLY_BRACKET);
    ([word "over"], OVER);
    ([word "left join"; Bnd :: lit "right join"; word "join"; word "union all";
      word "union"], JOINS);
    ([word "let"; word "distinct"; word "where"; word "group by"; word "having";
      word "as"; word "project"; word "count"; word "first"; word "match";
      word "case"; word "on"; word "sum"; word "partition by"], KEYWORD);
    ([word "null"], NULL);
    ([[Plus is_digit]], NUMBER);
    ([[Cls is_quote; Plus is_word; Cls is_quote]], STRING);
    ([[Plus is_word]], IDENTIFIER) ].

(** Length of the longest prefix of [s] made of characters of [p]. *)
Fixpoint span (p : ascii -> bool) (s : string) : nat :=
  match s with
  | String c s' => if p c then S (span p s') else 0
  | EmptyString => 0
  end.

Definition word_opt (c : option ascii) : bool :=
  match c with
  | Some a => is_word a
  | None => false
  end.

(** [match_atoms prev s r]: the length of the match of the pattern [r] at the
    start of [s], where [prev] is the character before [s] in the text.  A
    [Plus] takes its longest run and is never shortened: in [token_spec] a
    [Plus] ends its pattern or is followed by a class disjoint from its own,
    so backtracking into it cannot turn a failure into a match. *)
Fixpoint match_atoms (prev : option ascii) (s : string) (r : list atom) : option nat :=
  match r with
  | [] => Some 0
  | Bnd :: r' =>
      if xorb (word_opt prev) (word_opt (head_char s)) then match_atoms prev s r'
      else None
  | Chr c :: r' =>
      match s with
      | String c' s' =>
          if Ascii.eqb c c' then option_map S (match_atoms (Some c') s' r') else None
      | EmptyString => None
      end
  | Cls p :: r' =>
      match s with
      | String c' s' =>
          if p c' then option_map S (match_atoms (Some c') s' r') else None
      | EmptyString => None
      end
  | Plus p :: r' =>
      match span p s with
      | 0 => None
      | S k =>
          option_map (Nat.add (S k))
            (match_atoms (String.get k s) (string_drop (S k) s) r')
      end
  end.

(** The first alternative, in order, that matches. *)
Fixpoint match_alternatives (prev : option ascii) (s : string)
    (alts : list (list atom)) : option nat :=
  match alts with
  | [] => None
  | r :: tl =>
      match match_atoms prev s r with
      | Some n => Some n
      | None => match_alternatives prev s tl
      end
  end.

(** The first rule, in order, that matches: the length and [lastgroup]. *)
Fixpoint match_spec (spec : list (list (list atom) * TokenType))
    (prev : option ascii) (s : string) : option (nat * TokenType) :=
  match spec with
  | [] => None
  | (alts, group) :: tl =>
      match match_alternatives prev s alts with
      | Some n => Some (n, group)
      | None => match_spec tl prev s
      end
  end.

(** [finditer]: scan left to right; at a position where no rule matches the
    character is skipped.  [skip] counts the characters of the current match
    that are still to be passed over (no pattern matches the empty string). *)
Fixpoint finditer (spec : list (list (list atom) * TokenType))
    (skip : nat) (prev : option ascii) (s : string) : list Token :=
  match s with
  | EmptyString => []
  | String c s' =>
      match skip with
      | S k => finditer spec k (Some c) s'
      | O =>
          match match_spec spec prev s with
          | Some (S k, group) =>
              mkToken group (string_take (S k) s) :: finditer spec k (Some c) s'
          | _ => finditer spec 0 (Some c) s'
          end
      end
  end.

(** [Lexer._lex]: the token stream of a text.  The generator is lazy in the
    source; lexing has no effect and cannot fail, so the stream is its list. *)
Definition _lex (target : string) : list Token := finditer token_spec 0 None target.

Definition texts (l : list Token) : list string := map value l.

(** ** parser.py *)

(** The parser's state is the part of the token stream not yet consumed:
    its head is [self._lookahead] ([None] when the stream is exhausted) and
    its tail is what [self._lexer.get_next_token()] will still deliver. *)
Definition parser (A : Type) : Type := list Token -> result (A * list Token).

Definition ret {A : Type} (a : A) : parser A := fun st => Ok (a, st).
Definition raise {A : Type} (e : exn) : parser A := fun _ => Raise e.
Definition pbind {A B : Type} (m : parser A) (f : A -> parser B) : parser B :=
  fun st =>
    match m st with
    | Ok (a, st') => f a st'
    | Raise e => Raise e
    end.

Notation "x <~ m ;; k" := (pbind m (fun x => k))
  (at level 61, m at next level, right associativity) : py_scope.

Definition _lookahead : parser (option Token) := fun st => Ok (hd_error st, st).
Definition get_next_token : parser unit := fun st => Ok (tt, tl st).

(** [self._lookahead.type] and [self._lookahead.value]: an attribute of
    [None] raises AttributeError. *)
Definition lookahead_type : parser TokenType :=
  la <~ _lookahead ;;
  match la with
  | Some t => ret (type t)
  | None => raise AttributeError
  end.

Definition lookahead_value : parser string :=
  la <~ _lookahead ;;
  match la with
  | Some t => ret (value t)
  | None => raise AttributeError
  end.

Definition _consume (token_type : TokenType) : parser Token :=
  ty <~ lookahead_type ;;
  if negb (TokenType_eqb ty token_type) then raise (SyntaxError token_type)
  else
    la <~ _lookahead ;;
    match la with
    | None => raise EOFError
    | Some token => _ <~ get_next_token ;; ret token
    end.

(** Loop conditions. *)
Definition present : parser bool :=
  la <~ _lookahead ;;
  ret (match la with Some _ => true | None => false end).

Definition type_is (token_type : TokenType) : parser bool :=
  ty <~ lookahead_type ;; ret (TokenType_eqb ty token_type).

Definition type_is_not (token_type : TokenType) : parser bool :=
  ty <~ lookahead_type ;; ret (negb (TokenType_eqb ty token_type)).

(** [self._lookahead and self._lookahead.type == token_type] *)
Definition present_and_type_is (token_type : TokenType) : parser bool :=
  la <~ _lookahead ;;
  ret (match la with
       | Some t => TokenType_eqb (type t) token_type
       | None => false
       end).

Definition str_in (v : string) (l : list string) : bool := existsb (String.eqb v) l.

Definition value_in (l : list string) : parser bool :=
  v <~ lookahead_value ;; ret (str_in v l).

(** [while cond: s = body(s)].  Every loop body of the parser consumes at
    least one token when it returns, so a loop entered with [n] tokens left
    tests its condition at most [n + 1] times. *)
Fixpoint while_fuel {S : Type} (k : nat) (cond : parser bool) (body : S -> parser S)
    (s : S) : parser S :=
  match k with
  | O => raise OutOfFuel
  | Datatypes.S k' =>
      c <~ cond ;;
      if c then s' <~ body s ;; while_fuel k' cond body s' else ret s
  end.

Definition while_ {S : Type} (cond : parser bool) (body : S -> parser S) (s : S)
  : parser S :=
  fun st => while_fuel (Datatypes.S (length st)) cond body s st.

(** [l.append(item())] as a loop body. *)
Definition append (item : parser pyobj) (l : list pyobj) : parser (list pyobj) :=
  x <~ item ;; ret (l ++ [x])%list.

(** [re.search(...).group()] with the pattern "one or more characters that
    are not a quote": the first such run. *)
Fixpoint search_unquoted (s : string) : option string :=
  match s with
  | EmptyString => None
  | String c s' =>
      if is_quote c then search_unquoted s'
      else Some (string_take (span (fun a => negb (is_quote a)) s) s)
  end.

(** [int(value)] on a string of ASCII digits, which the text of a NUMBER
    token is; the other texts that [int] reads (a sign, blanks, underscores
    between digits) do not come out of the lexer and are ValueError here.  A
    string of more digits than [sys.get_int_max_str_digits()] is ValueError:
    the bound is 4300 unless the interpreter is set up otherwise (CPython
    3.11 and later), and the leading zeros count among the digits. *)
Definition int_max_str_digits : nat := 4300.

Definition digit_val (c : ascii) : Z := Z.of_nat (nat_of_ascii c - 48).

Fixpoint int_digits (acc : Z) (s : string) : option Z :=
  match s with
  | EmptyString => Some acc
  | String c s' =>
      if is_digit c then int_digits (10 * acc + digit_val c) s' else None
  end.

Definition int (s : string) : result Z :=
  match s with
  | EmptyString => Raise ValueError
  | _ => match int_digits 0 s with
         | Some z =>
             if Nat.ltb int_max_str_digits (String.length s) then Raise ValueError
             else Ok z
         | None => Raise ValueError
         end
  end.

Definition binary_expression (func : parser pyobj) (token_type : TokenType)
    (type : string) : parser pyobj :=
  left <~ func ;;
  while_ (present_and_type_is token_type)
    (fun left =>
       op <~ _consume token_type ;;
       right <~ func ;;
       ret (PDict [("type", PStr type); ("operator", PStr (value op));
                   ("left", left); ("right", right)]))
    left.

Definition union_join_expression (func : parser pyobj) : parser pyobj :=
  left <~ func ;;
  while_ (present_and_type_is JOINS)
    (fun left =>
       join_type <~ _consume JOINS ;;
       right <~ func ;;
       if contains "join" (value join_type) then
         _ <~ _consume KEYWORD ;;
         cond <~ func ;;
         ret (PDict [("type", PStr "JoinExpression");
                     ("join_type", PStr (value join_type));
                     ("left", left); ("right", right); ("condition", cond)])
       else
         ret (PDict [("type", PStr "UnionExpression");
                     ("left", left); ("right", right)]))
    left.

Definition identifier_expression : parser pyobj :=
  first <~ _consume IDENTIFIER ;;
  _id <~ while_ (present_and_type_is DOT)
          (fun _id =>
             _ <~ _consume DOT ;;
             t <~ _consume IDENTIFIER ;;
             ret (_id ++ [value t])%list)
          [value first] ;;
  let res := [("type", PStr "IdentifierExpression"); ("value", PStr (join "." _id))] in
  if Nat.ltb 1 (length _id)
  then ret (PDict (res ++ [("source_table", PStr (hd "" _id))])%list)
  else ret (PDict res).

Definition string_literal : parser pyobj :=
  t <~ _consume STRING ;;
  match search_unquoted (value t) with
  | Some s => ret (PDict [("type", PStr "StringLiteral"); ("value", PStr s)])
  | None => raise AttributeError
  end.

Definition numeric_literal : parser pyobj :=
  t <~ _consume NUMBER ;;
  match int (value t) with
  | Ok z => ret (PDict [("type", PStr "NumericLiteral"); ("value", PInt z)])
  | Raise e => raise e
  end.

Definition null_literal : parser pyobj :=
  _ <~ _consume NULL ;;
  ret (PDict [("type", PStr "NULL"); ("value", PNone)]).

Definition literals : parser pyobj :=
  ty <~ lookahead_type ;;
  if TokenType_eqb ty STRING then string_literal
  else if TokenType_eqb ty NUMBER then numeric_literal
  else null_literal.

Definition array_expression : parser pyobj :=
  _ <~ _consume OPENING_SQUARE_BRACKET ;;
  items <~ while_ (type_is_not CLOSING_SQUARE_BRACKET) (append literals) [] ;;
  _ <~ _consume CLOSING_SQUARE_BRACKET ;;
  ret (PDict [("type", PStr "ArrayExpression"); ("body", PList items)]).

(** The mutually recursive rules.  [fuel] bounds the depth of nested calls;
    a call made with no fuel left is [OutOfFuel]. *)
Fixpoint statement (fuel : nat) : parser pyobj :=
  match fuel with
  | O => raise OutOfFuel
  | S n =>
      v <~ lookahead_value ;;
      if String.eqb v "let" then variable_assignment_statement n
      else
        ty <~ lookahead_type ;;
        if TokenType_eqb ty OPENING_CURLY_BRACKET then block_statement n
        else if str_in v ["where"; "having"; "group by"] then filter_statement_list n
        else if TokenType_eqb ty IDENTIFIER then column_assignment_list n
        else expression n
  end

with variable_assignment_statement (fuel : nat) : parser pyobj :=
  match fuel with
  | O => raise OutOfFuel
  | S n =>
      _ <~ _consume KEYWORD ;;
      name <~ _consume IDENTIFIER ;;
      _ <~ _consume EQUALS ;;
      ty <~ lookahead_type ;;
      v <~ (if TokenType_eqb ty OPENING_CURLY_BRACKET then statement n
            else expression n) ;;
      ret (PDict [("type", PStr "VariableAssignment");
                  ("name", PStr (value name)); ("value", v)])
  end

with filter_statement_list (fuel : nat) : parser pyobj :=
  match fuel with
  | O => raise OutOfFuel
  | S n =>
      first <~ filter_statement n ;;
      _filter <~ while_ (value_in ["group by"; "having"; "where"])
                   (append (filter_statement n)) [first] ;;
      ret (PDict [("type", PStr "FilterStatementList"); ("body", PList _filter)])
  end

with filter_statement (fuel : nat) : parser pyobj :=
  match fuel with
  | O => raise OutOfFuel
  | S n =>
      _filter <~ _consume KEYWORD ;;
      body <~ (if String.eqb (value _filter) "group by" then statement n
               else expression n) ;;
      ret (PDict [("type", PStr "filter"); ("value", PStr (value _filter));
                  ("body", body)])
  end

with block_statement (fuel : nat) : parser pyobj :=
  match fuel with
  | O => raise OutOfFuel
  | S n =>
      _ <~ _consume OPENING_CURLY_BRACKET ;;
      ty <~ lookahead_type ;;
      modifier <~ (if TokenType_eqb ty KEYWORD
                   then t <~ _consume KEYWORD ;; ret (PStr (value t))
                   else ret PNone) ;;
      statements <~ while_ (type_is_not CLOSING_CURLY_BRACKET)
                      (append (statement n)) [] ;;
      _ <~ _consume CLOSING_CURLY_BRACKET ;;
      ret (PDict [("type", PStr "BlockStatement"); ("modifier", modifier);
                  ("body", PList statements)])
  end

with column_assignment_list (fuel : nat) : parser pyobj :=
  match fuel with
  | O => raise OutOfFuel
  | S n =>
      first <~ column_assignment_statement n ;;
      assignments <~ while_ (type_is COMMA)
                       (append (_ <~ _consume COMMA ;; column_assignment_statement n))
                       [first] ;;
      ret (PDict [("type", PStr "ColumnAssignmentList"); ("body", PList assignments)])
  end

with column_assignment_statement (fuel : nat) : parser pyobj :=
  match fuel with
  | O => raise OutOfFuel
  | S n =>
      name <~ expression n ;;
      ty <~ lookahead_type ;;
      if TokenType_eqb ty COLON then
        _ <~ _consume COLON ;;
        v <~ expression n ;;
        ret (PDict [("type", PStr "ColumnAssignmentStatement");
                    ("name", name); ("value", v)])
      else ret name
  end

with project_expression (fuel : nat) : parser pyobj :=
  match fuel with
  | O => raise OutOfFuel
  | S n =>
      _ <~ _consume KEYWORD ;;
      _ <~ _consume IDENTIFIER ;;
      _ <~ _consume KEYWORD ;;
      body <~ statement n ;;
      ret (PDict [("type", PStr "ProjectExpression"); ("body", body)])
  end

with parenthesized_expression (fuel : nat) : parser pyobj :=
  match fuel with
  | O => raise OutOfFuel
  | S n =>
      _ <~ _consume OPENING_PARENTHESIS ;;
      body <~ expression n ;;
      _ <~ _consume CLOSING_PARENTHESIS ;;
      ret (PDict [("type", PStr "ParenthesizedExpression"); ("body", body)])
  end

with match_expression (fuel : nat) : parser pyobj :=
  match fuel with
  | O => raise OutOfFuel
  | S n =>
      _ <~ _consume KEYWORD ;;
      _ <~ _consume OPENING_CURLY_BRACKET ;;
      cases <~ while_ (type_is_not CLOSING_CURLY_BRACKET)
                 (append (case_expression n)) [] ;;
      _ <~ _consume CLOSING_CURLY_BRACKET ;;
      ret (PDict [("type", PStr "MatchExpression"); ("body", PList cases)])
  end

with case_expression (fuel : nat) : parser pyobj :=
  match fuel with
  | O => raise OutOfFuel
  | S n =>
      _ <~ _consume KEYWORD ;;
      condition <~ expression n ;;
      _ <~ _consume FAT_ARROW ;;
      v <~ expression n ;;
      ret (PDict [("type", PStr "CaseExpression");
                  ("conditions", condition); ("value", v)])
  end

with functional_expression (fuel : nat) : parser pyobj :=
  match fuel with
  | O => raise OutOfFuel
  | S n =>
      name <~ _consume KEYWORD ;;
      _ <~ _consume OPENING_PARENTHESIS ;;
      first <~ expression n ;;
      args <~ while_ (type_is COMMA)
                (append (_ <~ _consume COMMA ;; expression n)) [first] ;;
      _ <~ _consume CLOSING_PARENTHESIS ;;
      ret (PDict [("type", PStr "FunctionalExpression");
                  ("name", PStr (value name)); ("args", PList args)])
  end

with expression (fuel : nat) : parser pyobj :=
  match fuel with
  | O => raise OutOfFuel
  | S n => over_expression n
  end

with over_expression (fuel : nat) : parser pyobj :=
  match fuel with
  | O => raise OutOfFuel
  | S n => binary_expression (join_expr n) OVER "BinaryExpression"
  end

with join_expr (fuel : nat) : parser pyobj :=
  match fuel with
  | O => raise OutOfFuel
  | S n => union_join_expression (logical_or n)
  end

with logical_or (fuel : nat) : parser pyobj :=
  match fuel with
  | O => raise OutOfFuel
  | S n => binary_expression (logical_and n) LOGICAL_OR "BinaryExpression"
  end

with logical_and (fuel : nat) : parser pyobj :=
  match fuel with
  | O => raise OutOfFuel
  | S n => binary_expression (equality_expression n) LOGICAL_AND "BinaryExpression"
  end

with equality_expression (fuel : nat) : parser pyobj :=
  match fuel with
  | O => raise OutOfFuel
  | S n => binary_expression (relational_expression n) EQUALITY "BinaryExpression"
  end

with relational_expression (fuel : nat) : parser pyobj :=
  match fuel with
  | O => raise OutOfFuel
  | S n =>
      binary_expression (additive_expression n) COMPARISON_OPERATOR "BinaryExpression"
  end

with additive_expression (fuel : nat) : parser pyobj :=
  match fuel with
  | O => raise OutOfFuel
  | S n =>
      binary_expression (multiplicative_expression n) ADDITIVE_OPERATOR
        "BinaryExpression"
  end

with multiplicative_expression (fuel : nat) : parser pyobj :=
  match fuel with
  | O => raise OutOfFuel
  | S n =>
      binary_expression (membership_expression n) MULTIPLICATIVE_OPERATOR
        "BinaryExpression"
  end

with membership_expression (fuel : nat) : parser pyobj :=
  match fuel with
  | O => raise OutOfFuel
  | S n =>
      binary_expression (unary_expression n) MEMBERSHIP_OPERATOR
        "MembershipExpression"
  end

with unary_expression (fuel : nat) : parser pyobj :=
  match fuel with
  | O => raise OutOfFuel
  | S n =>
      ty <~ lookahead_type ;;
      if TokenType_eqb ty ADDITIVE_OPERATOR then
        operator <~ _consume ADDITIVE_OPERATOR ;;
        if String.eqb (value operator) "" then primary_expression n
        else
          argument <~ primary_expression n ;;
          ret (PDict [("type", PStr "unary_expression");
                      ("operator", PStr (value operator)); ("argument", argument)])
      else primary_expression n
  end

with primary_expression (fuel : nat) : parser pyobj :=
  match fuel with
  | O => raise OutOfFuel
  | S n =>
      ty <~ lookahead_type ;;
      if TokenType_eqb ty IDENTIFIER then identifier_expression
      else
        v <~ lookahead_value ;;
        if String.eqb v "match" then match_expression n
        else if String.eqb v "case" then case_expression n
        else if String.eqb v "project" then project_expression n
        else if String.eqb v "partition by" then partition_by_expression n
        else if TokenType_eqb ty KEYWORD then functional_expression n
        else if TokenType_eqb ty OPENING_PARENTHESIS then parenthesized_expression n
        else if TokenType_eqb ty OPENING_SQUARE_BRACKET then array_expression
        else literals
  end

with partition_by_expression (fuel : nat) : parser pyobj :=
  match fuel with
  | O => raise OutOfFuel
  | S n =>
      _ <~ _consume KEYWORD ;;
      first <~ expression n ;;
      body <~ while_ (type_is COMMA)
                (append (_ <~ _consume COMMA ;; expression n)) [first] ;;
      ret (PDict [("type", PStr "PartitionByExpression"); ("body", PList body)])
  end.

Definition statement_list (fuel : nat) : parser pyobj :=
  statements <~ while_ present (append (statement fuel)) [] ;;
  ret (PDict [("type", PStr "StatementList"); ("body", PList statements)]).

(** A chain of calls that consumes no token passes through fewer than twenty
    rules, so this budget is not exhausted on a stream of that length. *)
Definition parse_fuel (tokens : list Token) : nat := 20 * S (length tokens).

(** [Parser.parse] *)
Definition parse (target : string) : result pyobj :=
  let tokens := _lex target in
  match statement_list (parse_fuel tokens) tokens with
  | Ok (ast, _) => Ok ast
  | Raise e => Raise e
  end.

(** ** Python operations the transformer relies on *)

(** Truth value of an object, as tested by [if x] and [not x]. *)
Definition truthy (o : pyobj) : bool :=
  match o with
  | PNone => false
  | PInt z => negb (Z.eqb z 0)
  | PStr s => negb (String.eqb s "")
  | PList l => match l with [] => false | _ => true end
  | PDict d => match d with [] => false | _ => true end
  end.

(** [o == "s"] *)
Definition is_str (o : pyobj) (s : string) : bool :=
  match o with
  | PStr s' => String.eqb s' s
  | _ => false
  end.

(** [repr] of a string: quoted with single quotes, or with double quotes when
    the string has a single quote and no double quote; the quote character,
    the backslash and the control characters are escaped. *)
Definition hex_digit (n : nat) : ascii :=
  if Nat.ltb n 10 then ascii_of_nat (48 + n) else ascii_of_nat (87 + n).

Definition repr_char (q : ascii) (c : ascii) : string :=
  let n := nat_of_ascii c in
  if Ascii.eqb c q || Ascii.eqb c backslash then String backslash (String c "")
  else if Nat.eqb n 9 then "\t"
  else if Nat.eqb n 10 then "\n"
  else if Nat.eqb n 13 then "\r"
  else if Nat.ltb n 32 || Nat.eqb n 127 then
    String backslash (String "x" (String (hex_digit (n / 16)) (String (hex_digit (n mod 16)) "")))
  else String c "".

Fixpoint repr_chars (q : ascii) (s : string) : string :=
  match s with
  | EmptyString => ""
  | String c s' => repr_char q c ++ repr_chars q s'
  end.

Definition repr_str (s : string) : string :=
  let q := if contains (String squote "") s && negb (contains (String dquote "") s)
           then dquote else squote in
  String q (repr_chars q s ++ String q "").

(** [repr] of an integer: its decimal text. *)
Definition repr_int (z : Z) : string := NilZero.string_of_int (Z.to_int z).

Fixpoint repr (o : pyobj) : string :=
  match o with
  | PNone => "None"
  | PInt z => repr_int z
  | PStr s => repr_str s
  | PList l => "[" ++ join ", " (map repr l) ++ "]"
  | PDict d =>
      "{" ++ join ", " (map (fun kv => repr_str (fst kv) ++ ": " ++ repr (snd kv)) d)
          ++ "}"
  end.

(** [str(o)], which is also what an f-string field [{o}] inserts. *)
Definition str (o : pyobj) : string :=
  match o with
  | PStr s => s
  | _ => repr o
  end.

Fixpoint lookup (k : string) (d : list (string * pyobj)) : option pyobj :=
  match d with
  | [] => None
  | (k', v) :: tl => if String.eqb k' k then Some v else lookup k tl
  end.

(** [o[k]] for a string key. *)
Definition getitem (o : pyobj) (k : string) : result pyobj :=
  match o with
  | PDict d => match lookup k d with
               | Some v => Ok v
               | None => Raise KeyError
               end
  | _ => Raise TypeError
  end.

(** [o[i]] for an integer index that is not negative.  The keys of the
    dictionaries of an AST are strings, so an integer is never a key. *)
Definition getindex (o : pyobj) (i : nat) : result pyobj :=
  match o with
  | PList l => match nth_error l i with
               | Some v => Ok v
               | None => Raise IndexError
               end
  | PStr s => match String.get i s with
              | Some c => Ok (PStr (String c ""))
              | None => Raise IndexError
              end
  | PDict _ => Raise KeyError
  | _ => Raise TypeError
  end.

(** [len(o)] *)
Definition len (o : pyobj) : result nat :=
  match o with
  | PList l => Ok (length l)
  | PDict d => Ok (length d)
  | PStr s => Ok (String.length s)
  | _ => Raise TypeError
  end.

(** The items that [for x in o] goes through. *)
Definition iter (o : pyobj) : result (list pyobj) :=
  match o with
  | PList l => Ok l
  | PDict d => Ok (map (fun kv => PStr (fst kv)) d)
  | PStr s => Ok (map (fun c => PStr (String c "")) (list_ascii_of_string s))
  | _ => Raise TypeError
  end.

(** [sep.join(l)] on a list of objects: TypeError unless all are strings. *)
Fixpoint strings_of (l : list pyobj) : result (list string) :=
  match l with
  | [] => Ok []
  | PStr s :: tl => ss <- strings_of tl ;; Ok (s :: ss)
  | _ :: _ => Raise TypeError
  end.

Definition str_join (sep : string) (l : list pyobj) : result string :=
  ss <- strings_of l ;; Ok (join sep ss).

(** [f(o[k])] and [[f(x) for x in o[k]]], with the call to [f] made on the
    component of [o] itself: this is what lets the recursive methods of the
    transformer be defined by structural recursion on the AST.  When the
    iteration is over the keys of a dictionary or the characters of a string
    the items are strings, on which [f_str] is called. *)
Definition item_then {A : Type} (f : pyobj -> result A) (o : pyobj) (k : string)
  : result A :=
  match o with
  | PDict d =>
      (fix go (d : list (string * pyobj)) : result A :=
         match d with
         | [] => Raise KeyError
         | (k', v) :: tl => if String.eqb k' k then f v else go tl
         end) d
  | _ => Raise TypeError
  end.

Definition each_then {A : Type} (f : pyobj -> result A) (f_str : string -> result A)
    (o : pyobj) : result (list A) :=
  match o with
  | PList l => mapM f l
  | PDict d => mapM f_str (map fst d)
  | PStr s => mapM f_str (map (fun c => String c "") (list_ascii_of_string s))
  | _ => Raise TypeError
  end.

(** ** transformer.py *)

Module Body.
Section Methods.

(** The recursive methods, as seen from inside a method body. *)
Variable self_create_expression : pyobj -> result pyobj.
Variable self_create_join : pyobj -> result pyobj.

(** What [self.create_expression] returns on a string: the test
    [expr["type"]] indexes a string with a string. *)
Definition on_str (_ : string) : result pyobj := Raise TypeError.

Definition create_operator (operator : pyobj) : pyobj :=
  if is_str operator "and" then PStr "&"
  else if is_str operator "or" then PStr "|"
  else operator.

Definition create_literal (expr : pyobj) : result pyobj :=
  ty <- getitem expr "type" ;;
  if is_str ty "StringLiteral" then
    v <- getitem expr "value" ;;
    Ok (PStr (String dquote (str v ++ String dquote "")))
  else if is_str ty "NumericLiteral" then getitem expr "value"
  else if is_str ty "BooleanLiteral" then getitem expr "value"
  else Ok PNone.

Definition create_union_expression (expr : pyobj) : result pyobj :=
  left <- item_then self_create_expression expr "left" ;;
  right <- item_then self_create_expression expr "right" ;;
  Ok (PStr (newline ++ str left ++ ".union(" ++ str right ++ ")" ++ newline)).

Definition create_match_expression (expr : pyobj) : result pyobj :=
  cases <- item_then (each_then self_create_expression on_str) expr "body" ;;
  joined_cases <- str_join (newline ++ ".") cases ;;
  Ok (PStr joined_cases).

Definition create_case_expression (expr : pyobj) : result pyobj :=
  conditions <- getitem expr "conditions" ;;
  ty <- getitem conditions "type" ;;
  is_default <- (if is_str ty "IdentifierExpression"
                 then v <- getitem conditions "value" ;; Ok (is_str v "_")
                 else Ok false) ;;
  if is_default then
    v <- item_then self_create_expression expr "value" ;;
    Ok (PStr ("otherwise(" ++ str v ++ ")"))
  else
    c <- item_then self_create_expression expr "conditions" ;;
    v <- item_then self_create_expression expr "value" ;;
    Ok (PStr ("when(" ++ newline ++ str c ++ ", " ++ str v ++ newline ++ ")")).

Definition create_membership_expression (expr : pyobj) : result pyobj :=
  left <- item_then self_create_expression expr "left" ;;
  right <- item_then self_create_expression expr "right" ;;
  Ok (PStr (str left ++ ".isin(" ++ str right ++ ")")).

Definition create_array_expression (expr : pyobj) : result pyobj :=
  body <- getitem expr "body" ;;
  items <- iter body ;;
  l <- mapM (fun item => v <- getitem item "value" ;; Ok (PStr (str v))) items ;;
  Ok (PStr (str (PList l))).

Definition create_identifier_expression (expr : pyobj) : result pyobj :=
  v <- getitem expr "value" ;;
  match v with
  | PStr s =>
      let val := split "." s in
      if Nat.eqb (length val) 1 then Ok v
      else Ok (PStr (hd "" val ++ "['" ++ join "." (tl val) ++ "']"))
  | _ => Raise AttributeError
  end.

Definition create_functional_expression (expr : pyobj) : result pyobj :=
  name <- getitem expr "name" ;;
  args <- item_then (each_then self_create_expression on_str) expr "args" ;;
  joined <- str_join "," args ;;
  Ok (PStr (str name ++ "(" ++ joined ++ ")")).

Definition create_parenthesized_expression (expr : pyobj) : result pyobj :=
  body <- item_then self_create_expression expr "body" ;;
  Ok (PStr ("(" ++ str body ++ ")")).

Definition create_binary_expression (expr : pyobj) : result pyobj :=
  left <- item_then self_create_expression expr "left" ;;
  right <- item_then self_create_expression expr "right" ;;
  let left_paren := "" in
  let right_paren := "" in
  operator <- getitem expr "operator" ;;
  if is_str operator "!=" && negb (truthy right) then
    Ok (PStr (left_paren ++ str left ++ right_paren ++ ".isNotNull()"))
  else
    let '(left_paren, right_paren) :=
      if is_str operator "and" || is_str operator "or" then ("(", ")")
      else (left_paren, right_paren) in
    Ok (PStr (left_paren ++ str left ++ right_paren ++ " "
              ++ str (create_operator operator) ++ " "
              ++ left_paren ++ str right ++ right_paren)).

Definition create_join (join : pyobj) : result pyobj :=
  l <- getitem join "left" ;;
  lty <- getitem l "type" ;;
  if is_str lty "JoinExpression" then
    left <- item_then self_create_join join "left" ;;
    r <- getitem join "right" ;;
    rv <- getitem r "value" ;;
    cond <- item_then self_create_expression join "condition" ;;
    how <- getitem join "join_type" ;;
    Ok (PStr (str left ++ ".join(" ++ str rv ++ ", on=" ++ str cond
              ++ ", how=" ++ String dquote (str how ++ String dquote ")")))
  else if is_str lty "UnionExpression" then
    left <- item_then create_union_expression join "left" ;;
    r <- getitem join "right" ;;
    rv <- getitem r "value" ;;
    cond <- item_then self_create_expression join "condition" ;;
    how <- getitem join "join_type" ;;
    Ok (PStr (str left ++ ".join(" ++ str rv ++ ", on=" ++ str cond
              ++ ", how=" ++ String dquote (str how ++ String dquote ")")))
  else
    lv <- getitem l "value" ;;
    r <- getitem join "right" ;;
    rv <- getitem r "value" ;;
    cond <- item_then self_create_expression join "condition" ;;
    how <- getitem join "join_type" ;;
    Ok (PStr (str lv ++ ".join(" ++ str rv ++ ", on=" ++ str cond
              ++ ", how=" ++ String dquote (str how ++ String dquote ")"))).

Definition create_expression (expr : pyobj) : result pyobj :=
  ty <- getitem expr "type" ;;
  if is_str ty "MembershipExpression" then create_membership_expression expr
  else if is_str ty "BinaryExpression" then create_binary_expression expr
  else if is_str ty "ParenthesizedExpression" then create_parenthesized_expression expr
  else if is_str ty "FunctionalExpression" then create_functional_expression expr
  else if is_str ty "IdentifierExpression" then create_identifier_expression expr
  else if is_str ty "ArrayExpression" then create_array_expression expr
  else if is_str ty "MatchExpression" then create_match_expression expr
  else if is_str ty "CaseExpression" then create_case_expression expr
  else if is_str ty "UnionExpression" then create_union_expression expr
  else if is_str ty "JoinExpression" then create_join expr
  else create_literal expr.

End Methods.
End Body.

(** Tying the knot: every call on a component of the argument. *)
Fixpoint create_expression (expr : pyobj) {struct expr} : result pyobj :=
  Body.create_expression create_expression create_join expr
with create_join (join : pyobj) {struct join} : result pyobj :=
  Body.create_join create_expression create_join join.

(** The methods, closed. *)
Definition create_operator := Body.create_operator.
Definition create_literal := Body.create_literal.
Definition create_union_expression := Body.create_union_expression create_expression.
Definition create_match_expression := Body.create_match_expression create_expression.
Definition create_case_expression := Body.create_case_expression create_expression.
Definition create_membership_expression :=
  Body.create_membership_expression create_expression.
Definition create_array_expression := Body.create_array_expression.
Definition create_identifier_expression := Body.create_identifier_expression.
Definition create_functional_expression :=
  Body.create_functional_expression create_expression.
Definition create_parenthesized_expression :=
  Body.create_parenthesized_expression create_expression.
Definition create_binary_expression := Body.create_binary_expression create_expression.

(** [k in o] *)
Definition py_in (k : string) (o : pyobj) : result bool :=
  match o with
  | PDict d => Ok (match lookup k d with Some _ => true | None => false end)
  | PStr s => Ok (contains k s)
  | PList l => Ok (existsb (fun x => is_str x k) l)
  | _ => Raise TypeError
  end.

(** [get_source_table]: depth first, through the values of a dictionary in
    insertion order and through the items of the lists among them; the first
    truthy [source_table] wins, and falling off the end returns [None]. *)
Fixpoint get_source_table (expr : pyobj) {struct expr} : result pyobj :=
  match expr with
  | PDict d =>
      match lookup "source_table" d with
      | Some v => Ok v
      | None =>
          (fix values (d : list (string * pyobj)) : result pyobj :=
             match d with
             | [] => Ok PNone
             | (_, v) :: rest =>
                 match v with
                 | PDict _ =>
                     res <- get_source_table v ;;
                     if truthy res then Ok res else values rest
                 | PList l =>
                     (fix items (l : list pyobj) : result pyobj :=
                        match l with
                        | [] => values rest
                        | data :: l' =>
                            res <- get_source_table data ;;
                            if truthy res then Ok res else items l'
                        end) l
                 | _ => values rest
                 end
             end) d
      end
  | _ =>
      b <- py_in "source_table" expr ;;
      if b then Raise TypeError else Raise AttributeError
  end.

Definition create_column_assignment_list (expr : pyobj) : result pyobj :=
  body <- getitem expr "body" ;;
  items <- iter body ;;
  l <- mapM create_expression items ;;
  joined <- str_join "," l ;;
  Ok (PStr joined).

Definition create_filter (expr : pyobj) : result pyobj :=
  v <- getitem expr "value" ;;
  if is_str v "where" then
    body <- getitem expr "body" ;;
    e <- create_expression body ;;
    Ok (PStr ("filter(" ++ str e ++ ")"))
  else if is_str v "having" then
    body <- getitem expr "body" ;;
    e <- create_expression body ;;
    Ok (PStr ("agg(" ++ str e ++ ")"))
  else if is_str v "group by" then
    body <- getitem expr "body" ;;
    e <- create_column_assignment_list body ;;
    Ok (PStr ("groupBy(" ++ str e ++ ")"))
  else Ok PNone.

(** One turn of the loop over [col_assignments]. *)
Definition create_assignment (col_assignment : pyobj) : result pyobj :=
  v <- getitem col_assignment "value" ;;
  e <- create_expression v ;;
  name <- getitem col_assignment "name" ;;
  nv <- getitem name "value" ;;
  Ok (PStr (str e ++ ".alias('" ++ str nv ++ "')")).

(** [stmt.get('modifier')] *)
Definition get_modifier (stmt : pyobj) : result pyobj :=
  match stmt with
  | PDict d => match lookup "modifier" d with
               | Some v => Ok v
               | None => Ok PNone
               end
  | _ => Raise AttributeError
  end.

Definition create_block_statement (stmt : pyobj) : result string :=
  body <- getitem stmt "body" ;;
  first <- getindex body 0 ;;
  col_assignments <- getitem first "body" ;;
  first_assignment <- getindex col_assignments 0 ;;
  source_table <- get_source_table first_assignment ;;
  items <- iter col_assignments ;;
  assignments <- mapM create_assignment items ;;
  n <- len body ;;
  filters <- (if Nat.ltb 1 n
              then second <- getindex body 1 ;; getitem second "body"
              else Ok (PList [])) ;;
  filter_items <- iter filters ;;
  filter_stmts <- mapM create_filter filter_items ;;
  joined_assignments <- str_join ("," ++ newline) assignments ;;
  joined_filters <- str_join (newline ++ ".") filter_stmts ;;
  let res := str source_table ++ ".select(" ++ newline ++ joined_assignments
             ++ newline ++ ")" in
  let res := if truthy (PStr joined_filters)
             then res ++ newline ++ "." ++ joined_filters else res in
  modifier <- get_modifier stmt ;;
  if truthy modifier
  then Ok (res ++ "." ++ newline ++ str modifier ++ "()")
  else Ok res.

Definition create_project_expression (expr : pyobj) : result string :=
  body <- getitem expr "body" ;;
  create_block_statement body.

Definition create_variable_assignment (item : pyobj) : result string :=
  v <- getitem item "value" ;;
  ty <- getitem v "type" ;;
  body <- (if is_str ty "BlockStatement" then create_block_statement v
           else if is_str ty "ProjectExpression" then create_project_expression v
           else e <- create_expression v ;; Ok (str e)) ;;
  name <- getitem item "name" ;;
  Ok (str name ++ " = (" ++ newline ++ body ++ newline ++ ".alias('" ++ str name
      ++ "')" ++ newline ++ ")" ++ newline).

(** One turn of the loop of [transform]: what the item adds to [res]. *)
Definition transform_item (item : pyobj) : result (list string) :=
  ty <- getitem item "type" ;;
  r1 <- (if is_str ty "VariableAssignment"
         then s <- create_variable_assignment item ;; Ok [s]
         else Ok []) ;;
  ty' <- getitem item "type" ;;
  r2 <- (if is_str ty' "ProjectExpression"
         then s <- create_project_expression item ;; Ok [s]
         else Ok []) ;;
  Ok (r1 ++ r2)%list.

Definition transform (ast : pyobj) : result string :=
  body <- getitem ast "body" ;;
  items <- iter body ;;
  res <- mapM transform_item items ;;
  Ok (join newline (concat res)).

(** Parse, then generate. *)
Definition transpile (target : string) : result string :=
  ast <- parse target ;;
  transform ast.

(** * Vocabulary of the properties *)

(** ** The shapes of the AST nodes that the parser builds *)

Definition IdentifierExpression (v : string) : pyobj :=
  PDict [("type", PStr "IdentifierExpression"); ("value", PStr v)].

Definition DottedIdentifier (v source_table : string) : pyobj :=
  PDict [("type", PStr "IdentifierExpression"); ("value", PStr v);
         ("source_table", PStr source_table)].

Definition StringLiteral (s : string) : pyobj :=
  PDict [("type", PStr "StringLiteral"); ("value", PStr s)].

Definition NumericLiteral (z : Z) : pyobj :=
  PDict [("type", PStr "NumericLiteral"); ("value", PInt z)].

Definition NullLiteral : pyobj := PDict [("type", PStr "NULL"); ("value", PNone)].

Definition BinaryExpression (operator : string) (left right : pyobj) : pyobj :=
  PDict [("type", PStr "BinaryExpression"); ("operator", PStr operator);
         ("left", left); ("right", right)].

Definition JoinExpression (join_type : string) (left right condition : pyobj) : pyobj :=
  PDict [("type", PStr "JoinExpression"); ("join_type", PStr join_type);
         ("left", left); ("right", right); ("condition", condition)].

Definition FunctionalExpression (name : string) (args : list pyobj) : pyobj :=
  PDict [("type", PStr "FunctionalExpression"); ("name", PStr name);
         ("args", PList args)].

Definition ParenthesizedExpression (body : pyobj) : pyobj :=
  PDict [("type", PStr "ParenthesizedExpression"); ("body", body)].

Definition ArrayExpression (items : list pyobj) : pyobj :=
  PDict [("type", PStr "ArrayExpression"); ("body", PList items)].

Definition ColumnAssignmentStatement (name v : pyobj) : pyobj :=
  PDict [("type", PStr "ColumnAssignmentStatement"); ("name", name); ("value", v)].

Definition ColumnAssignmentList (assignments : list pyobj) : pyobj :=
  PDict [("type", PStr "ColumnAssignmentList"); ("body", PList assignments)].

Definition FilterStatement (keyword : string) (body : pyobj) : pyobj :=
  PDict [("type", PStr "filter"); ("value", PStr keyword); ("body", body)].

Definition FilterStatementList (filters : list pyobj) : pyobj :=
  PDict [("type", PStr "FilterStatementList"); ("body", PList filters)].

Definition BlockStatement (modifier : pyobj) (statements : list pyobj) : pyobj :=
  PDict [("type", PStr "BlockStatement"); ("modifier", modifier);
         ("body", PList statements)].

Definition VariableAssignment (name : string) (v : pyobj) : pyobj :=
  PDict [("type", PStr "VariableAssignment"); ("name", PStr name); ("value", v)].

Definition StatementList (statements : list pyobj) : pyobj :=
  PDict [("type", PStr "StatementList"); ("body", PList statements)].

(** A string between double quotes. *)
Definition quoted (s : string) : string := String dquote (s ++ String dquote "").

Definition scenario : string :=
  "let x = { count(a), b: sum(c) where a > 1 group by b }".






(** The items of an array are the nodes that [literals] builds. *)
Inductive literal : Type :=
| LString (s : string)
| LNumber (z : Z)
| LNull.

Definition literal_node (l : literal) : pyobj :=
  match l with
  | LString s => StringLiteral s
  | LNumber z => NumericLiteral z
  | LNull => NullLiteral
  end.

(** The raw value of an item, as text. *)
Definition literal_text (l : literal) : string :=
  match l with
  | LString s => s
  | LNumber z => repr_int z
  | LNull => "None"
  end.

Fixpoint all_chars (p : ascii -> bool) (s : string) : bool :=
  match s with
  | EmptyString => true
  | String c s' => p c && all_chars p s'
  end.

(** The value of a string literal comes from a STRING token, whose text
    between the quotes is made of word characters. *)
Definition lexed_literal (l : literal) : bool :=
  match l with
  | LString s => all_chars is_word s
  | _ => true
  end.

(** A character that [repr] leaves as it is between single quotes. *)
Definition plain (c : ascii) : bool :=
  let n := nat_of_ascii c in
  negb (Ascii.eqb c squote) && negb (Ascii.eqb c backslash)
  && Nat.leb 32 n && negb (Nat.eqb n 127).

(** A dictionary with no [source_table] key, none in the dictionaries among
    its values and none in the dictionaries of the lists among its values,
    all the items of these lists being such dictionaries. *)
Fixpoint no_source_table (o : pyobj) {struct o} : bool :=
  match o with
  | PDict d =>
      match lookup "source_table" d with
      | Some _ => false
      | None =>
          (fix values (d : list (string * pyobj)) : bool :=
             match d with
             | [] => true
             | (_, v) :: rest =>
                 match v with
                 | PDict _ => no_source_table v && values rest
                 | PList l =>
                     (fix items (l : list pyobj) : bool :=
                        match l with
                        | [] => true
                        | data :: l' => no_source_table data && items l'
                        end) l && values rest
                 | _ => values rest
                 end
             end) d
      end
  | _ => false
  end.

(** Induction on objects, through the lists and dictionaries. *)
Section pyobj_induction.
Variable P : pyobj -> Prop.
Hypothesis HNone : P PNone.
Hypothesis HInt : forall z, P (PInt z).
Hypothesis HStr : forall s, P (PStr s).
Hypothesis HList : forall l, Forall P l -> P (PList l).
Hypothesis HDict : forall d, Forall (fun kv => P (snd kv)) d -> P (PDict d).

Fixpoint pyobj_ind (o : pyobj) : P o :=
  match o with
  | PNone => HNone
  | PInt z => HInt z
  | PStr s => HStr s
  | PList l =>
      HList l
        ((fix go (l : list pyobj) : Forall P l :=
            match l with
            | [] => Forall_nil P
            | x :: tl => Forall_cons x (pyobj_ind x) (go tl)
            end) l)
  | PDict d =>
      HDict d
        ((fix go (d : list (string * pyobj)) : Forall (fun kv => P (snd kv)) d :=
            match d with
            | [] => Forall_nil _
            | kv :: tl => Forall_cons kv (pyobj_ind (snd kv)) (go tl)
            end) d)
  end.
End pyobj_induction.

Definition search_finds_nothing (o : pyobj) : Prop :=
  no_source_table o = true -> get_source_table o = Ok PNone.

(** The statements of a block after its column assignments: none, or one
    list of filter statements. *)
Definition filter_part (filters : list pyobj) : list pyobj :=
  match filters with
  | [] => []
  | _ => [FilterStatementList filters]
  end.

(** ** Vocabulary of the further properties *)

(** The characters of ASCII.  Beyond them the classes [\w] and [\d] of the
    interpreter have letters and digits that [is_word] and [is_digit] do not
    have. *)
Definition is_ascii (c : ascii) : bool := Nat.ltb (nat_of_ascii c) 128.

(** A character with which no pattern of [token_spec] can start: a character
    of ASCII that is not a word character, not a quote, and none of the
    operator and punctuation characters.  The blank is one. *)
Definition starts_no_token (c : ascii) : bool :=
  is_ascii c
  && negb (is_word c || is_quote c
           || existsb (Ascii.eqb c)
                (list_ascii_of_string "=:><!*/+-.,[](){}")).

(** A pattern with an atom that takes at least one character. *)
Definition consumes (r : list atom) : bool :=
  existsb (fun a => match a with Bnd => false | _ => true end) r.

(** Every alternative of every rule takes at least one character. *)
Definition every_pattern_consumes (spec : list (list (list atom) * TokenType)) : bool :=
  forallb (fun rule => forallb consumes (fst rule)) spec.

(** The words that a rule before the identifier rule matches on their own. *)
Definition reserved : list string :=
  ["in"; "or"; "and"; "over"; "join"; "union"; "let"; "distinct"; "where";
   "having"; "as"; "project"; "count"; "first"; "match"; "case"; "on"; "sum";
   "null"].

(** Two characters that stand for all the others in front of a match. *)
Definition stand_in (p : option ascii) : option ascii :=
  if word_opt p then Some "a"%char else None.

(** [s] without its prefix [p]. *)
Fixpoint strip_prefix (p s : string) : option string :=
  match p, s with
  | EmptyString, _ => Some s
  | String a p', String b s' => if Ascii.eqb a b then strip_prefix p' s' else None
  | String _ _, EmptyString => None
  end.

Fixpoint last_char (s : string) (default : option ascii) : option ascii :=
  match s with
  | EmptyString => default
  | String c s' => last_char s' (Some c)
  end.

(** The rules of the parser that call one another. *)
Inductive rule : Type :=
| Rstatement | Rvariable_assignment_statement | Rfilter_statement_list
| Rfilter_statement | Rblock_statement | Rcolumn_assignment_list
| Rcolumn_assignment_statement | Rproject_expression | Rparenthesized_expression
| Rmatch_expression | Rcase_expression | Rfunctional_expression | Rexpression
| Rover_expression | Rjoin_expr | Rlogical_or | Rlogical_and
| Requality_expression | Rrelational_expression | Radditive_expression
| Rmultiplicative_expression | Rmembership_expression | Runary_expression
| Rprimary_expression | Rpartition_by_expression.

Definition run (r : rule) : nat -> parser pyobj :=
  match r with
  | Rstatement => statement
  | Rvariable_assignment_statement => variable_assignment_statement
  | Rfilter_statement_list => filter_statement_list
  | Rfilter_statement => filter_statement
  | Rblock_statement => block_statement
  | Rcolumn_assignment_list => column_assignment_list
  | Rcolumn_assignment_statement => column_assignment_statement
  | Rproject_expression => project_expression
  | Rparenthesized_expression => parenthesized_expression
  | Rmatch_expression => match_expression
  | Rcase_expression => case_expression
  | Rfunctional_expression => functional_expression
  | Rexpression => expression
  | Rover_expression => over_expression
  | Rjoin_expr => join_expr
  | Rlogical_or => logical_or
  | Rlogical_and => logical_and
  | Requality_expression => equality_expression
  | Rrelational_expression => relational_expression
  | Radditive_expression => additive_expression
  | Rmultiplicative_expression => multiplicative_expression
  | Rmembership_expression => membership_expression
  | Runary_expression => unary_expression
  | Rprimary_expression => primary_expression
  | Rpartition_by_expression => partition_by_expression
  end.

(** The exceptions that the parser can raise. *)
Definition parser_exn (e : exn) : Prop :=
  match e with
  | SyntaxError _ | AttributeError | ValueError | OutOfFuel => True
  | _ => False
  end.

Definition raises_only (A : exn -> Prop) {T : Type} (p : parser T) : Prop :=
  forall st e, p st = Raise e -> A e.

(** The longest chain of calls from a rule to a rule that consumes a token,
    counted in rules. *)
Definition rank (r : rule) : nat :=
  match r with
  | Rprimary_expression => 2
  | Runary_expression => 3
  | Rmembership_expression => 4
  | Rmultiplicative_expression => 5
  | Radditive_expression => 6
  | Rrelational_expression => 7
  | Requality_expression => 8
  | Rlogical_and => 9
  | Rlogical_or => 10
  | Rjoin_expr => 11
  | Rover_expression => 12
  | Rexpression => 13
  | Rcolumn_assignment_statement => 14
  | Rcolumn_assignment_list => 15
  | Rfilter_statement_list => 2
  | Rstatement => 16
  | _ => 1
  end.

(** [good N p k strict]: on a stream of [L] tokens with [k + 20 * L <= N],
    the parser [p] does not run out of budget, and when it returns the stream
    is not longer than it was, and shorter when [strict]. *)
Definition good (N : nat) {T : Type} (p : parser T) (k : nat) (strict : bool) : Prop :=
  forall st,
    k + 20 * length st <= N ->
    p st <> Raise OutOfFuel
    /\ forall a st', p st = Ok (a, st') ->
         length st' + (if strict then 1 else 0) <= length st.

(** An identifier token. *)
Definition ident (name : string) : Token := mkToken IDENTIFIER name.

(** The type of the lookahead, if there is one. *)
Definition head_type (st : list Token) : option TokenType :=
  match st with
  | [] => None
  | t :: _ => Some (type t)
  end.

(** [iterates cond body s st s' st']: from the state [s] and the stream [st]
    the loop [while cond: s = body(s)] ends in [s'] on [st'], each turn
    shortening the stream. *)
Inductive iterates {S : Type} (cond : parser bool) (body : S -> parser S)
  : S -> list Token -> S -> list Token -> Prop :=
| iterates_done (s : S) (st : list Token) :
    cond st = Ok (false, st) -> iterates cond body s st s st
| iterates_step (s s1 s' : S) (st st1 st' : list Token) :
    cond st = Ok (true, st) ->
    body s st = Ok (s1, st1) ->
    length st1 < length st ->
    iterates cond body s1 st1 s' st' ->
    iterates cond body s st s' st'.

(** The tokens of [x0 op1 x1 op2 x2 ...] and the tree they stand for. *)
Definition chain_tokens (operator_type : TokenType) (chain : list (string * string))
  : list Token :=
  flat_map (fun c => [mkToken operator_type (fst c); ident (snd c)]) chain.

Definition chain_tree (x0 : string) (chain : list (string * string)) : pyobj :=
  fold_left (fun left c => BinaryExpression (fst c) left (IdentifierExpression (snd c)))
    chain (IdentifierExpression x0).

(** The tokens of a dotted chain after its first segment. *)
Definition dotted_tokens (dot_text : string) (segments : list string) : list Token :=
  flat_map (fun x => [mkToken DOT dot_text; ident x]) segments.

Definition not_head (tt : TokenType) (st : list Token) : Prop :=
  head_type st <> Some tt.

(** The operators that bind tighter than an addition, and than a join. *)
Definition tighter_than_additive : list TokenType :=
  [DOT; MEMBERSHIP_OPERATOR; MULTIPLICATIVE_OPERATOR].

Definition tighter_than_join : list TokenType :=
  [DOT; MEMBERSHIP_OPERATOR; MULTIPLICATIVE_OPERATOR; ADDITIVE_OPERATOR;
   COMPARISON_OPERATOR; EQUALITY; LOGICAL_AND; LOGICAL_OR].

Definition not_heads (l : list TokenType) (st : list Token) : Prop :=
  forall tt, In tt l -> not_head tt st.

(** One step of a chain of joins: the operator, the table joined, the
    keyword before the condition and the condition, both identifiers. *)
Record join_step : Type :=
  mkJoinStep { step_type : string; step_table : string;
               step_keyword : string; step_condition : string }.

Definition join_tokens (chain : list join_step) : list Token :=
  flat_map (fun s => [mkToken JOINS (step_type s); ident (step_table s);
                      mkToken KEYWORD (step_keyword s); ident (step_condition s)])
    chain.

Definition join_tree (a : string) (chain : list join_step) : pyobj :=
  fold_left (fun left s =>
               JoinExpression (step_type s) left (IdentifierExpression (step_table s))
                 (IdentifierExpression (step_condition s)))
    chain (IdentifierExpression a).

Definition join_step_text (s : join_step) : string :=
  ".join(" ++ step_table s ++ ", on=" ++ step_condition s ++ ", how="
  ++ quoted (step_type s) ++ ")".

Definition join_text (a : string) (chain : list join_step) : string :=
  fold_left (fun acc s => acc ++ join_step_text s) chain a.

Definition MembershipExpression (left right : pyobj) : pyobj :=
  PDict [("type", PStr "MembershipExpression"); ("operator", PStr "in");
         ("left", left); ("right", right)].

Definition CaseExpression (conditions v : pyobj) : pyobj :=
  PDict [("type", PStr "CaseExpression"); ("conditions", conditions); ("value", v)].

Definition MatchExpression (cases : list pyobj) : pyobj :=
  PDict [("type", PStr "MatchExpression"); ("body", PList cases)].

Definition UnionExpression (left right : pyobj) : pyobj :=
  PDict [("type", PStr "UnionExpression"); ("left", left); ("right", right)].

(** The node types that [create_expression] and [create_literal] test for. *)
Definition handled : list string :=
  ["MembershipExpression"; "BinaryExpression"; "ParenthesizedExpression";
   "FunctionalExpression"; "IdentifierExpression"; "ArrayExpression";
   "MatchExpression"; "CaseExpression"; "UnionExpression"; "JoinExpression";
   "StringLiteral"; "NumericLiteral"; "BooleanLiteral"].

Definition dot : ascii := "."%char.

(** No dot in a string. *)
Definition dotless (s : string) : bool :=
  all_chars (fun c => negb (Ascii.eqb c dot)) s.

(** A statement that [transform] passes over. *)
Definition not_rendered_at_top (item : pyobj) : Prop :=
  exists d ty,
    item = PDict d /\ lookup "type" d = Some ty
    /\ is_str ty "VariableAssignment" = false
    /\ is_str ty "ProjectExpression" = false.

(** The text of a block, from its parts. *)
Definition block_text (source_table : pyobj) (assignments filter_stmts : list string)
    (modifier : pyobj) : string :=
  let res := str source_table ++ ".select(" ++ newline
             ++ join ("," ++ newline) assignments ++ newline ++ ")" in
  let res := if String.eqb (join (newline ++ ".") filter_stmts) "" then res
             else res ++ newline ++ "." ++ join (newline ++ ".") filter_stmts in
  if truthy modifier then res ++ "." ++ newline ++ str modifier ++ "()" else res.

(** * Properties *)

(** ** Unfolding the recursive methods *)

Lemma create_expression_unfold (expr : pyobj) :
  create_expression expr = Body.create_expression create_expression create_join expr.
Proof. destruct expr; reflexivity. Qed.

Lemma create_join_unfold (join : pyobj) :
  create_join join = Body.create_join create_expression create_join join.
Proof. destruct join; reflexivity. Qed.

(** The continuation-passing accessors are the plain ones followed by the
    call. *)
Lemma item_then_getitem {A : Type} (f : pyobj -> result A) (o : pyobj) (k : string) :
  item_then f o k = (v <- getitem o k ;; f v).
Proof.
  destruct o as [| | | |d]; try reflexivity.
  unfold getitem. simpl.
  induction d as [|[k' v] tl IH]; simpl; [reflexivity|].
  destruct (String.eqb k' k); [reflexivity|exact IH].
Qed.

Lemma create_expression_on_str (s : string) :
  create_expression (PStr s) = Body.on_str s.
Proof. reflexivity. Qed.

Lemma each_then_iter (o : pyobj) :
  each_then create_expression Body.on_str o
  = (items <- iter o ;; mapM create_expression items).
Proof.
  destruct o as [| | s | l | d]; simpl; try reflexivity.
  - induction (list_ascii_of_string s) as [|c tl IH]; simpl; [reflexivity|].
    reflexivity.
  - induction d as [|[k v] tl IH]; simpl; reflexivity.
Qed.

(** ** The budget of the loops *)

(** A loop whose condition leaves the stream as it is and whose body shortens
    it runs out of budget only if its condition or its body does. *)
Lemma while_fuel_enough {S : Type} (cond : parser bool) (body : S -> parser S) :
  (forall st, cond st <> Raise OutOfFuel) ->
  (forall st b st', cond st = Ok (b, st') -> st' = st) ->
  (forall s st, body s st <> Raise OutOfFuel) ->
  (forall s st s' st', body s st = Ok (s', st') -> length st' < length st) ->
  forall k s st, length st < k -> while_fuel k cond body s st <> Raise OutOfFuel.
Proof.
  intros Hc Hcst Hb Hshort.
  induction k as [|k IH]; intros s st Hlen; [lia|].
  simpl. unfold pbind.
  destruct (cond st) as [[b st']|e] eqn:Ec.
  - apply Hcst in Ec as E. subst st'.
    destruct b; [|unfold ret; discriminate].
    destruct (body s st) as [[s' st']|e] eqn:Eb.
    + apply IH. apply Hshort in Eb. lia.
    + intro H. injection H as ->. exact (Hb s st Eb).
  - intro H. injection H as ->. exact (Hc st Ec).
Qed.

Lemma while_enough {S : Type} (cond : parser bool) (body : S -> parser S) :
  (forall st, cond st <> Raise OutOfFuel) ->
  (forall st b st', cond st = Ok (b, st') -> st' = st) ->
  (forall s st, body s st <> Raise OutOfFuel) ->
  (forall s st s' st', body s st = Ok (s', st') -> length st' < length st) ->
  forall s st, while_ cond body s st <> Raise OutOfFuel.
Proof.
  intros Hc Hcst Hb Hshort s st. unfold while_.
  apply while_fuel_enough; auto.
Qed.

(** ** The end-to-end scenario *)

(** C1. On the scenario text the parser does not return: the keyword [count]
    that follows the opening brace is taken as the modifier of the block, the
    body then starts at the parenthesis, and the comma that follows it is
    refused where a literal is expected; no text is generated. *)
Theorem scenario_raises_SyntaxError :
  parse scenario = Raise (SyntaxError NULL)
  /\ transpile scenario = Raise (SyntaxError NULL).
Proof. split; vm_compute; reflexivity. Qed.

(** ** Column assignments written without a colon *)

(** C2. [let x = { a }] and [let x = { b: c, count(a) }] both parse, to
    blocks whose column-assignment list holds a bare expression, and on both
    ASTs the generator raises: TypeError on the first, where the [value] of
    the identifier node is a string, KeyError on the second, where the
    functional node has no [value]. *)
Theorem bare_column_parses_and_generate_raises :
  parse "let x = { a }"
  = Ok (StatementList
          [VariableAssignment "x"
             (BlockStatement PNone
                [ColumnAssignmentList [IdentifierExpression "a"]])])
  /\ transpile "let x = { a }" = Raise TypeError
  /\ parse "let x = { b: c, count(a) }"
     = Ok (StatementList
             [VariableAssignment "x"
                (BlockStatement PNone
                   [ColumnAssignmentList
                      [ColumnAssignmentStatement (IdentifierExpression "b")
                         (IdentifierExpression "c");
                       FunctionalExpression "count" [IdentifierExpression "a"]]])])
  /\ transpile "let x = { b: c, count(a) }" = Raise KeyError.
Proof. repeat split; vm_compute; reflexivity. Qed.

(** ** Tokens and their texts *)

(** C3. The text [a >= b] is lexed into four tokens, the comparison being cut
    after its first character, so that joining the token texts with single
    spaces gives [a > = b]; likewise for [<=]. *)
Theorem ge_le_are_split_by_the_lexer :
  _lex "a >= b"
  = [mkToken IDENTIFIER "a"; mkToken COMPARISON_OPERATOR ">"; mkToken EQUALS "=";
     mkToken IDENTIFIER "b"]
  /\ join " " (texts (_lex "a >= b")) = "a > = b"
  /\ join " " (texts (_lex "a >= b")) <> "a >= b"
  /\ join " " (texts (_lex "a <= b")) = "a < = b"
  /\ join " " (texts (_lex "a <= b")) <> "a <= b".
Proof. repeat split; try (vm_compute; reflexivity); vm_compute; discriminate. Qed.

(** ** Join chains *)



(** ** Running out of tokens *)

Lemma _consume_exhausted (token_type : TokenType) :
  _consume token_type [] = Raise AttributeError.
Proof. reflexivity. Qed.

Lemma _consume_never_EOFError (token_type : TokenType) (st : list Token) :
  _consume token_type st <> Raise EOFError.
Proof.
  destruct st as [|t st]; [discriminate|].
  unfold _consume, pbind, lookahead_type, _lookahead, ret, raise, get_next_token.
  simpl. destruct (TokenType_eqb (type t) token_type); simpl; discriminate.
Qed.

(** C5. When a token is to be consumed and none is left, [_consume] reads
    the type of the absent lookahead and raises AttributeError; it raises
    EOFError on no stream at all.  On the text [let], where an identifier is
    expected after the last token, [parse] raises AttributeError. *)
Theorem exhausted_stream_raises_AttributeError :
  (forall token_type, _consume token_type [] = Raise AttributeError)
  /\ (forall token_type st, _consume token_type st <> Raise EOFError)
  /\ parse "let" = Raise AttributeError.
Proof.
  split; [exact _consume_exhausted|].
  split; [exact _consume_never_EOFError|].
  vm_compute; reflexivity.
Qed.

(** ** The null-check idiom *)

Lemma append_empty_r (s : string) : s ++ "" = s.
Proof. induction s as [|c s IH]; simpl; [reflexivity|now rewrite IH]. Qed.


(** What the generator returns on a [!=] comparison whose operands render. *)
Lemma create_expression_neq (left right lv rv : pyobj) :
  create_expression left = Ok lv ->
  create_expression right = Ok rv ->
  create_expression (BinaryExpression "!=" left right)
  = Ok (PStr (if truthy rv then str lv ++ " != " ++ str rv
              else str lv ++ ".isNotNull()")).
Proof.
  intros Hl Hr.
  rewrite create_expression_unfold.
  unfold Body.create_expression, BinaryExpression. simpl.
  unfold Body.create_binary_expression.
  rewrite !item_then_getitem. simpl.
  rewrite Hl, Hr. simpl.
  destruct (truthy rv); simpl; [|reflexivity].
  rewrite append_empty_r. reflexivity.
Qed.

Lemma create_expression_literals :
  create_expression NullLiteral = Ok PNone
  /\ forall z, create_expression (NumericLiteral z) = Ok (PInt z).
Proof. split; [reflexivity|intro z; reflexivity]. Qed.





(** C8, as stated, at the comparison of [count(1)] with 0, as the parser
    builds it: the left operand does not render, the number among the
    arguments of the call not being a string that [join] takes, and the
    generator raises TypeError instead of emitting the null check.  The same
    with [null] on the right. *)
Lemma neq_zero_raises_when_left_does_not_render :
  let count_1 := FunctionalExpression "count" [NumericLiteral 1] in
  parse "let x = count(1) != 0"
  = Ok (StatementList
          [VariableAssignment "x" (BinaryExpression "!=" count_1 (NumericLiteral 0))])
  /\ create_expression count_1 = Raise TypeError
  /\ create_expression (BinaryExpression "!=" count_1 (NumericLiteral 0))
     = Raise TypeError
  /\ create_expression (BinaryExpression "!=" count_1 NullLiteral)
     = Raise TypeError
  /\ transpile "let x = count(1) != 0" = Raise TypeError.
Proof. repeat split; vm_compute; reflexivity. Qed.

(** C8, amended.  A [!=] comparison whose left operand renders and whose
    right operand is the null literal or the numeric literal 0 is rendered
    as [left.isNotNull()]: [create_literal] returns [None] on a NULL node and
    the raw integer on a NumericLiteral node, and both count as false. *)
Theorem neq_null_and_neq_zero_emit_isNotNull (left lv : pyobj) :
  create_expression left = Ok lv ->
  create_literal NullLiteral = Ok PNone
  /\ create_literal (NumericLiteral 0) = Ok (PInt 0)
  /\ truthy PNone = false
  /\ truthy (PInt 0) = false
  /\ create_expression (BinaryExpression "!=" left NullLiteral)
     = Ok (PStr (str lv ++ ".isNotNull()"))
  /\ create_expression (BinaryExpression "!=" left (NumericLiteral 0))
     = Ok (PStr (str lv ++ ".isNotNull()")).
Proof.
  intro Hl.
  repeat split.
  - exact (create_expression_neq left NullLiteral lv PNone Hl eq_refl).
  - exact (create_expression_neq left (NumericLiteral 0) lv (PInt 0) Hl eq_refl).
Qed.

Lemma neq_null_and_neq_zero_emit_isNotNull_witness :
  create_expression (BinaryExpression "!=" (DottedIdentifier "t.a" "t") NullLiteral)
  = Ok (PStr "t['a'].isNotNull()")
  /\ create_expression
       (BinaryExpression "!=" (DottedIdentifier "t.a" "t") (NumericLiteral 0))
     = Ok (PStr "t['a'].isNotNull()").
Proof.
  pose proof (neq_null_and_neq_zero_emit_isNotNull
                (DottedIdentifier "t.a" "t") (PStr "t['a']") eq_refl) as H.
  split; [exact (proj1 (proj2 (proj2 (proj2 (proj2 H)))))
         |exact (proj2 (proj2 (proj2 (proj2 (proj2 H)))))].
Defined.

(** ** Arrays *)

Lemma is_word_plain (c : ascii) : is_word c = true -> plain c = true.
Proof.
  destruct c as [[] [] [] [] [] [] [] []]; vm_compute; intro H;
    first [reflexivity | discriminate H].
Qed.

Lemma all_chars_impl (p q : ascii -> bool) (s : string) :
  (forall c, p c = true -> q c = true) ->
  all_chars p s = true -> all_chars q s = true.
Proof.
  intro Hpq. induction s as [|c s IH]; simpl; [reflexivity|].
  intro H. apply andb_true_iff in H. destruct H as [Hc Hs].
  rewrite (Hpq c Hc), (IH Hs). reflexivity.
Qed.

Lemma repr_char_plain (c : ascii) : plain c = true -> repr_char squote c = String c "".
Proof.
  destruct c as [[] [] [] [] [] [] [] []]; vm_compute; intro H;
    first [reflexivity | discriminate H].
Qed.

Lemma repr_chars_plain (s : string) :
  all_chars plain s = true -> repr_chars squote s = s.
Proof.
  induction s as [|c s IH]; simpl; [reflexivity|].
  intro H. apply andb_true_iff in H. destruct H as [Hc Hs].
  rewrite (repr_char_plain c Hc), (IH Hs). reflexivity.
Qed.

Lemma plain_not_squote (c : ascii) : plain c = true -> Ascii.eqb c squote = false.
Proof.
  unfold plain. intro H.
  destruct (Ascii.eqb c squote); [discriminate H|reflexivity].
Qed.

Lemma contains_squote_plain (s : string) :
  all_chars plain s = true -> contains (String squote "") s = false.
Proof.
  induction s as [|c s IH]; [reflexivity|].
  cbn [all_chars]. intro H. apply andb_true_iff in H. destruct H as [Hc Hs].
  change (contains (String squote "") (String c s))
    with (String.prefix (String squote "") (String c s)
          || contains (String squote "") s).
  rewrite (IH Hs), orb_false_r.
  change (String.prefix (String squote "") (String c s))
    with (if ascii_dec squote c then String.prefix "" s else false).
  destruct (ascii_dec squote c) as [E|E].
  - subst c. discriminate Hc.
  - reflexivity.
Qed.

(** [repr] of a string of plain characters: the string between single
    quotes. *)
Lemma repr_str_plain (s : string) :
  all_chars plain s = true -> repr_str s = "'" ++ s ++ "'".
Proof.
  intro H. unfold repr_str.
  rewrite (contains_squote_plain s H). simpl.
  rewrite (repr_chars_plain s H). reflexivity.
Qed.

Lemma string_of_uint_plain (d : Decimal.uint) :
  all_chars plain (NilEmpty.string_of_uint d) = true.
Proof. induction d; simpl; try reflexivity; exact IHd. Qed.

Lemma repr_int_plain (z : Z) : all_chars plain (repr_int z) = true.
Proof.
  unfold repr_int, NilZero.string_of_int.
  destruct (Z.to_int z) as [d|d]; unfold NilZero.string_of_uint.
  - destruct d; try reflexivity; apply (string_of_uint_plain (_ d)).
  - change (all_chars plain (String "-" ?s)) with (all_chars plain s).
    destruct d; try reflexivity; apply (string_of_uint_plain (_ d)).
Qed.

Lemma literal_text_plain (l : literal) :
  lexed_literal l = true -> all_chars plain (literal_text l) = true.
Proof.
  destruct l as [s|z|]; simpl; intro H.
  - exact (all_chars_impl is_word plain s is_word_plain H).
  - apply repr_int_plain.
  - reflexivity.
Qed.

(** The list that [create_array_expression] builds before it calls [str]. *)
Lemma array_items_texts (items : list literal) :
  mapM (fun item => v <- getitem item "value" ;; Ok (PStr (str v)))
       (map literal_node items)
  = Ok (map (fun l => PStr (literal_text l)) items).
Proof.
  induction items as [|l items IH]; simpl; [reflexivity|].
  rewrite IH. destruct l; reflexivity.
Qed.

Lemma create_expression_array (items : list literal) :
  create_expression (ArrayExpression (map literal_node items))
  = Ok (PStr ("[" ++ join ", " (map (fun l => repr_str (literal_text l)) items) ++ "]")).
Proof.
  rewrite create_expression_unfold.
  unfold Body.create_expression, ArrayExpression. simpl.
  unfold Body.create_array_expression. simpl.
  rewrite array_items_texts. simpl.
  rewrite map_map. reflexivity.
Qed.

(** C7, as stated, at the array of the numbers 1 and 2 (the text [[1 2]]):
    the items come out between single quotes. *)
Lemma array_items_are_quoted :
  parse "let x = a in [1 2]"
  = Ok (StatementList
          [VariableAssignment "x"
             (PDict [("type", PStr "MembershipExpression"); ("operator", PStr "in");
                     ("left", IdentifierExpression "a");
                     ("right", ArrayExpression [NumericLiteral 1; NumericLiteral 2])])])
  /\ create_expression (ArrayExpression [NumericLiteral 1; NumericLiteral 2])
     = Ok (PStr "['1', '2']")
  /\ create_expression (ArrayExpression [NumericLiteral 1; NumericLiteral 2])
     <> Ok (PStr "[1, 2]")
  /\ create_expression (ArrayExpression [StringLiteral "abc"])
     = Ok (PStr "['abc']").
Proof.
  repeat split; try (vm_compute; reflexivity); vm_compute; discriminate.
Qed.

(** C7, amended.  An array of literals is rendered as a bracketed list, the
    items separated by a comma and a space, each item being its raw value as
    text between single quotes: the characters of a string, the decimal
    digits of a number, [None] for null. *)
Theorem array_renders_quoted_items (items : list literal) :
  forallb lexed_literal items = true ->
  create_expression (ArrayExpression (map literal_node items))
  = Ok (PStr ("[" ++ join ", " (map (fun l => "'" ++ literal_text l ++ "'") items)
              ++ "]")).
Proof.
  intro H. rewrite create_expression_array.
  rewrite (map_ext_in (fun l => repr_str (literal_text l))
             (fun l => "'" ++ literal_text l ++ "'") items); [reflexivity|].
  intros l Hl. apply repr_str_plain, literal_text_plain.
  rewrite forallb_forall in H. exact (H l Hl).
Qed.

Lemma array_renders_quoted_items_witness :
  create_expression
    (ArrayExpression [NumericLiteral 1; StringLiteral "abc"; NullLiteral])
  = Ok (PStr "['1', 'abc', 'None']").
Proof.
  exact (array_renders_quoted_items [LNumber 1; LString "abc"; LNull] eq_refl).
Defined.

(** ** The source table of a block *)

Lemma get_source_table_none_items (o : pyobj) :
  search_finds_nothing o
  /\ forall l, o = PList l -> Forall search_finds_nothing l.
Proof.
  induction o as [|z|s|l IHl|d IHd] using pyobj_ind.
  - split; [discriminate|discriminate].
  - split; [discriminate|discriminate].
  - split; [discriminate|discriminate].
  - split; [discriminate|].
    intros l' E. injection E as <-.
    induction IHl as [|x tl [Hx _] _ IH]; constructor; assumption.
  - split; [|discriminate].
    unfold search_finds_nothing. simpl.
    destruct (lookup "source_table" d); [discriminate|].
    induction IHd as [|[k v] rest Hv _ IH]; [reflexivity|].
    simpl in Hv. destruct Hv as [Hq Hitems].
    destruct v as [| | |l|d'].
    + exact IH.
    + exact IH.
    + exact IH.
    + intro H. apply andb_true_iff in H. destruct H as [Hl Hrest].
      specialize (Hitems l eq_refl). clear Hq. revert Hl.
      induction Hitems as [|data l' Hdata _ IHl']; intro Hl.
      * exact (IH Hrest).
      * apply andb_true_iff in Hl. destruct Hl as [Hd Hl'].
        rewrite (Hdata Hd). simpl. exact (IHl' Hl').
    + intro H. apply andb_true_iff in H. destruct H as [Hv Hrest].
      rewrite (Hq Hv). simpl. exact (IH Hrest).
Qed.

(** The search finds nothing in such a dictionary, and does not raise. *)
Lemma get_source_table_none (o : pyobj) :
  no_source_table o = true -> get_source_table o = Ok PNone.
Proof. exact (proj1 (get_source_table_none_items o)). Qed.

(** The turns of the loop over the column assignments return strings. *)
Lemma create_assignment_str (c v : pyobj) :
  create_assignment c = Ok v -> exists s, v = PStr s.
Proof.
  unfold create_assignment, bind. intro H.
  destruct (getitem c "value"); [|discriminate].
  destruct (create_expression a); [|discriminate].
  destruct (getitem c "name"); [|discriminate].
  destruct (getitem a1 "value"); [|discriminate].
  injection H as <-. eexists; reflexivity.
Qed.

Lemma mapM_create_assignment_strings (cols assignments : list pyobj) :
  mapM create_assignment cols = Ok assignments ->
  exists ss, strings_of assignments = Ok ss.
Proof.
  revert assignments. induction cols as [|c cols IH]; simpl; intros assignments H.
  - injection H as <-. exists []. reflexivity.
  - unfold bind in H.
    destruct (create_assignment c) as [v|] eqn:Ec; [|discriminate].
    destruct (mapM create_assignment cols) as [vs|] eqn:Ecs; [|discriminate].
    injection H as <-.
    destruct (create_assignment_str c v Ec) as [s ->].
    destruct (IH vs eq_refl) as [ss Hss].
    exists (s :: ss). simpl. rewrite Hss. reflexivity.
Qed.

Lemma strings_of_map_PStr (ss : list string) : strings_of (map PStr ss) = Ok ss.
Proof. induction ss as [|s ss IH]; simpl; [reflexivity|]. rewrite IH. reflexivity. Qed.

(** C9, as stated, at two inputs.  In [{ t.a: count(b) }] the value of the
    first column assignment has no [source_table] under it, but its name has
    one, and the search, which goes through the whole assignment, finds it:
    the text begins with [t.select(].  In [{ a: count(1) }] no node at all
    has a [source_table], and the generator raises TypeError, when the
    arguments of [count] are joined. *)
Lemma source_table_found_in_name_or_generate_raises :
  let dotted :=
    ColumnAssignmentStatement (DottedIdentifier "t.a" "t")
      (FunctionalExpression "count" [IdentifierExpression "b"]) in
  let numeric :=
    ColumnAssignmentStatement (IdentifierExpression "a")
      (FunctionalExpression "count" [NumericLiteral 1]) in
  (parse "let x = { t.a: count(b) }"
   = Ok (StatementList
           [VariableAssignment "x"
              (BlockStatement PNone [ColumnAssignmentList [dotted]])])
   /\ no_source_table (FunctionalExpression "count" [IdentifierExpression "b"]) = true
   /\ create_block_statement (BlockStatement PNone [ColumnAssignmentList [dotted]])
      = Ok ("t.select(" ++ newline ++ "count(b).alias('t.a')" ++ newline ++ ")"))
  /\ (parse "let x = { a: count(1) }"
      = Ok (StatementList
              [VariableAssignment "x"
                 (BlockStatement PNone [ColumnAssignmentList [numeric]])])
      /\ no_source_table numeric = true
      /\ create_block_statement (BlockStatement PNone [ColumnAssignmentList [numeric]])
         = Raise TypeError
      /\ transpile "let x = { a: count(1) }" = Raise TypeError).
Proof. repeat split; vm_compute; reflexivity. Qed.

(** C9, amended.  When no node of the first column assignment of a block, in
    its name or in its value, has a [source_table], the search returns [None]
    and does not raise; and when moreover the column assignments and the
    filter statements of the block render, the generator returns, and the
    text of the block begins with [None.select(]. *)
Theorem block_without_source_table_selects_from_None
    (modifier first : pyobj) (more filters assignments : list pyobj)
    (filter_stmts : list string) :
  no_source_table first = true ->
  mapM create_assignment (first :: more) = Ok assignments ->
  mapM create_filter filters = Ok (map PStr filter_stmts) ->
  get_source_table first = Ok PNone
  /\ exists rest,
       create_block_statement
         (BlockStatement modifier
            (ColumnAssignmentList (first :: more) :: filter_part filters))
       = Ok ("None.select(" ++ rest).
Proof.
  intros Hfirst Hassign Hfilters.
  pose proof (get_source_table_none first Hfirst) as Hsearch.
  split; [exact Hsearch|].
  destruct (mapM_create_assignment_strings _ _ Hassign) as [ss Hss].
  unfold create_block_statement, BlockStatement, ColumnAssignmentList.
  cbn [getitem lookup String.eqb Ascii.eqb Bool.eqb getindex nth_error bind iter len].
  rewrite Hsearch. cbn [bind]. rewrite Hassign. cbn [bind].
  unfold str_join. rewrite Hss. cbn [bind].
  destruct filters as [|f filters'].
  - cbn [filter_part length Nat.ltb Nat.leb bind iter mapM strings_of join].
    cbn [truthy String.eqb negb get_modifier lookup Ascii.eqb Bool.eqb bind].
    destruct (truthy modifier); eexists; cbn [str repr append]; reflexivity.
  - cbn [filter_part length Nat.ltb Nat.leb getindex nth_error bind].
    unfold FilterStatementList.
    cbn [getitem lookup String.eqb Ascii.eqb Bool.eqb bind iter].
    rewrite Hfilters. cbn [bind]. rewrite strings_of_map_PStr. cbn [bind].
    cbn [get_modifier lookup String.eqb Ascii.eqb Bool.eqb bind].
    destruct (truthy (PStr (join (newline ++ ".") filter_stmts)));
      destruct (truthy modifier); eexists; cbn [str repr append]; reflexivity.
Qed.

Lemma block_without_source_table_selects_from_None_witness :
  get_source_table
    (ColumnAssignmentStatement (IdentifierExpression "a")
       (FunctionalExpression "count" [IdentifierExpression "b"]))
  = Ok PNone
  /\ exists rest,
       create_block_statement
         (BlockStatement PNone
            [ColumnAssignmentList
               [ColumnAssignmentStatement (IdentifierExpression "a")
                  (FunctionalExpression "count" [IdentifierExpression "b"]);
                ColumnAssignmentStatement (IdentifierExpression "b")
                  (FunctionalExpression "sum" [IdentifierExpression "c"])];
             FilterStatementList
               [FilterStatement "where"
                  (BinaryExpression ">" (IdentifierExpression "a") (NumericLiteral 1));
                FilterStatement "group by"
                  (ColumnAssignmentList [IdentifierExpression "b"])]])
       = Ok ("None.select(" ++ rest).
Proof.
  exact (block_without_source_table_selects_from_None PNone
           (ColumnAssignmentStatement (IdentifierExpression "a")
              (FunctionalExpression "count" [IdentifierExpression "b"]))
           [ColumnAssignmentStatement (IdentifierExpression "b")
              (FunctionalExpression "sum" [IdentifierExpression "c"])]
           [FilterStatement "where"
              (BinaryExpression ">" (IdentifierExpression "a") (NumericLiteral 1));
            FilterStatement "group by"
              (ColumnAssignmentList [IdentifierExpression "b"])]
           [PStr "count(b).alias('a')"; PStr "sum(c).alias('b')"]
           ["filter(a > 1)"; "groupBy(b)"]
           eq_refl eq_refl eq_refl).
Defined.

(** The block above is what the parser returns on the text it stands for, and
    this is its whole rendering. *)
Example block_without_source_table_rendering :
  transpile "let x = { a: count(b), b: sum(c) where a > 1 group by b }"
  = Ok ("x = (" ++ newline ++ "None.select(" ++ newline
        ++ "count(b).alias('a')," ++ newline ++ "sum(c).alias('b')" ++ newline
        ++ ")" ++ newline ++ ".filter(a > 1)" ++ newline ++ ".groupBy(b)"
        ++ newline ++ ".alias('x')" ++ newline ++ ")" ++ newline).
Proof. vm_compute; reflexivity. Qed.

(** ** The modifier of a block *)

(** C10.  In a block, whatever the token that follows the opening brace, if
    its type is KEYWORD the parser consumes it and records its text as the
    modifier; the statements of the block are read from the tokens after it.
    So [count], at the start of [{ count(a) }], is the modifier and not the
    name of a function, while it is one after a colon. *)
Theorem block_takes_leading_keyword_as_modifier :
  (forall (n : nat) (brace keyword : string) (rest : list Token),
     block_statement (S n)
       (mkToken OPENING_CURLY_BRACKET brace :: mkToken KEYWORD keyword :: rest)
     = (statements <~ while_ (type_is_not CLOSING_CURLY_BRACKET)
                        (append (statement n)) [] ;;
        _ <~ _consume CLOSING_CURLY_BRACKET ;;
        ret (BlockStatement (PStr keyword) statements)) rest)
  /\ block_statement 40 (_lex "{ count(a) }")
     = Ok (BlockStatement (PStr "count")
             [ParenthesizedExpression (IdentifierExpression "a")], [])
  /\ block_statement 40 (_lex "{ sum(a) }")
     = Ok (BlockStatement (PStr "sum")
             [ParenthesizedExpression (IdentifierExpression "a")], [])
  /\ block_statement 40 (_lex "{ distinct a }")
     = Ok (BlockStatement (PStr "distinct")
             [ColumnAssignmentList [IdentifierExpression "a"]], [])
  /\ block_statement 40 (_lex "{ x: count(a) }")
     = Ok (BlockStatement PNone
             [ColumnAssignmentList
                [ColumnAssignmentStatement (IdentifierExpression "x")
                   (FunctionalExpression "count" [IdentifierExpression "a"])]], []).
Proof.
  split; [intros; reflexivity|].
  repeat split; vm_compute; reflexivity.
Qed.

(** * Further properties *)

(** ** The lexer *)

(** A match depends on the character before it only through its being a word
    character or not. *)
Lemma match_atoms_prev (p1 p2 : option ascii) (s : string) (r : list atom) :
  word_opt p1 = word_opt p2 -> match_atoms p1 s r = match_atoms p2 s r.
Proof.
  revert p1 p2 s. induction r as [|a r IH]; intros p1 p2 s H; [reflexivity|].
  destruct a; simpl.
  - rewrite H. destruct (xorb (word_opt p2) (word_opt (head_char s)));
      [apply IH; exact H|reflexivity].
  - reflexivity.
  - reflexivity.
  - reflexivity.
Qed.

Lemma match_alternatives_prev (p1 p2 : option ascii) (s : string)
    (alts : list (list atom)) :
  word_opt p1 = word_opt p2 ->
  match_alternatives p1 s alts = match_alternatives p2 s alts.
Proof.
  intro H. induction alts as [|r alts IH]; simpl; [reflexivity|].
  rewrite (match_atoms_prev p1 p2 s r H), IH. reflexivity.
Qed.

Lemma match_spec_prev (spec : list (list (list atom) * TokenType))
    (p1 p2 : option ascii) (s : string) :
  word_opt p1 = word_opt p2 -> match_spec spec p1 s = match_spec spec p2 s.
Proof.
  intro H. induction spec as [|[alts g] spec IH]; simpl; [reflexivity|].
  rewrite (match_alternatives_prev p1 p2 s alts H), IH. reflexivity.
Qed.

Lemma word_opt_stand_in (p : option ascii) : word_opt p = word_opt (stand_in p).
Proof. unfold stand_in. destruct (word_opt p); reflexivity. Qed.

Lemma match_spec_starts_no_token (prev : option ascii) (c : ascii) (s : string) :
  starts_no_token c = true -> match_spec token_spec prev (String c s) = None.
Proof.
  intro H.
  rewrite (match_spec_prev token_spec prev (stand_in prev) _ (word_opt_stand_in prev)).
  unfold stand_in. destruct (word_opt prev);
    destruct c as [[] [] [] [] [] [] [] []];
    first [discriminate H | vm_compute; reflexivity].
Qed.

Lemma finditer_skip (spec : list (list (list atom) * TokenType)) (s : string) :
  forall k prev, String.length s <= k -> finditer spec k prev s = [].
Proof.
  induction s as [|c s IH]; intros k prev H; [reflexivity|].
  simpl in H. destruct k as [|k]; [lia|].
  simpl. apply IH. lia.
Qed.

Lemma string_take_all (s : string) : string_take (String.length s) s = s.
Proof. induction s as [|c s IH]; simpl; [reflexivity|]. rewrite IH. reflexivity. Qed.

Lemma span_all (p : ascii -> bool) (s : string) :
  all_chars p s = true -> span p s = String.length s.
Proof.
  induction s as [|c s IH]; simpl; [reflexivity|].
  intro H. apply andb_true_iff in H. destruct H as [Hc Hs].
  rewrite Hc, (IH Hs). reflexivity.
Qed.

(** A pattern that takes a character matches no empty text. *)
Lemma match_atoms_consumes (r : list atom) :
  consumes r = true ->
  forall prev s n, match_atoms prev s r = Some n ->
    exists c s' k, s = String c s' /\ n = S k.
Proof.
  induction r as [|a r IH]; intros Hr prev s n H; [discriminate Hr|].
  destruct a as [|c|p|p]; cbn [match_atoms] in H.
  - destruct (xorb (word_opt prev) (word_opt (head_char s))); [|discriminate H].
    exact (IH Hr prev s n H).
  - destruct s as [|c' s']; [discriminate H|].
    destruct (Ascii.eqb c c'); [|discriminate H].
    destruct (match_atoms (Some c') s' r) as [m|]; [|discriminate H].
    injection H as <-. exists c', s', m. split; reflexivity.
  - destruct s as [|c' s']; [discriminate H|].
    destruct (p c'); [|discriminate H].
    destruct (match_atoms (Some c') s' r) as [m|]; [|discriminate H].
    injection H as <-. exists c', s', m. split; reflexivity.
  - destruct s as [|c' s']; [discriminate H|].
    destruct (span p (String c' s')) as [|k]; [discriminate H|].
    destruct (match_atoms (String.get k (String c' s'))
                (string_drop (S k) (String c' s')) r) as [m|]; [|discriminate H].
    injection H as <-. exists c', s', (k + m). split; reflexivity.
Qed.

Lemma match_alternatives_consumes (alts : list (list atom)) :
  forallb consumes alts = true ->
  forall prev s n, match_alternatives prev s alts = Some n ->
    exists c s' k, s = String c s' /\ n = S k.
Proof.
  induction alts as [|r alts IH]; intros Ha prev s n H; [discriminate H|].
  cbn [forallb] in Ha. apply andb_true_iff in Ha. destruct Ha as [Hr Ha].
  cbn [match_alternatives] in H.
  destruct (match_atoms prev s r) as [m|] eqn:E.
  - injection H as <-. exact (match_atoms_consumes r Hr prev s m E).
  - exact (IH Ha prev s n H).
Qed.

Lemma match_spec_consumes (spec : list (list (list atom) * TokenType)) :
  every_pattern_consumes spec = true ->
  forall prev s n group, match_spec spec prev s = Some (n, group) ->
    exists c s' k, s = String c s' /\ n = S k.
Proof.
  unfold every_pattern_consumes.
  induction spec as [|[alts g] spec IH]; intros Hs prev s n group H; [discriminate H|].
  cbn [forallb fst] in Hs. apply andb_true_iff in Hs. destruct Hs as [Ha Hs].
  cbn [match_spec] in H.
  destruct (match_alternatives prev s alts) as [m|] eqn:E.
  - injection H as <- _. exact (match_alternatives_consumes alts Ha prev s m E).
  - exact (IH Hs prev s n group H).
Qed.

(** X1. No rule of [token_spec] matches the empty text: at whatever place of
    whatever text, after whatever character, a match of [token_spec] has at
    least one character, so that its text, the value of the token, is not
    empty.  This is a fact of the rules: each alternative of each of the
    twenty-five has a character, a class or a repetition of one or more
    besides its word boundaries. *)
Theorem token_spec_matches_no_empty_text (prev : option ascii) (s : string)
    (n : nat) (group : TokenType) :
  match_spec token_spec prev s = Some (n, group) ->
  0 < n /\ s <> "" /\ value (mkToken group (string_take n s)) <> "".
Proof.
  intro H.
  destruct (match_spec_consumes token_spec eq_refl prev s n group H)
    as (c & s' & k & -> & ->).
  repeat split; [lia|discriminate|cbn [value string_take]; discriminate].
Qed.

Lemma token_spec_matches_no_empty_text_witness :
  match_spec token_spec (Some " "%char) "let x" = Some (3, KEYWORD)
  /\ 0 < 3 /\ "let x" <> "" /\ value (mkToken KEYWORD (string_take 3 "let x")) <> "".
Proof.
  split; [reflexivity|].
  apply (token_spec_matches_no_empty_text (Some " "%char) "let x" 3 KEYWORD).
  reflexivity.
Defined.

(** X2. Characters with which no token can start are passed over in silence:
    a text made only of characters of ASCII that are neither word characters
    nor quotes nor operator or punctuation characters, blanks for instance,
    has no token, parses to the empty list of statements and is transpiled
    to the empty text. *)
Theorem unmatched_text_is_skipped (target : string) :
  all_chars starts_no_token target = true ->
  _lex target = []
  /\ parse target = Ok (StatementList [])
  /\ transpile target = Ok "".
Proof.
  intro H.
  assert (E : _lex target = []).
  { unfold _lex. generalize (@None ascii).
    induction target as [|c s IH]; intro prev; [reflexivity|].
    simpl in H. apply andb_true_iff in H. destruct H as [Hc Hs].
    cbn [finditer]. rewrite (match_spec_starts_no_token prev c s Hc).
    apply IH. exact Hs. }
  split; [exact E|].
  unfold transpile, parse. rewrite E. split; reflexivity.
Qed.

Lemma unmatched_text_is_skipped_witness :
  _lex "  @ # ;  " = []
  /\ parse "  @ # ;  " = Ok (StatementList [])
  /\ transpile "  @ # ;  " = Ok "".
Proof. exact (unmatched_text_is_skipped "  @ # ;  " eq_refl). Defined.

Lemma match_spec_digit (c : ascii) (s : string) :
  is_digit c = true ->
  match_spec token_spec None (String c s) = Some (S (span is_digit s + 0), NUMBER).
Proof.
  intro H. destruct c as [[] [] [] [] [] [] [] []];
    first [discriminate H | vm_compute; reflexivity].
Qed.

Lemma lex_digits (target : string) :
  target <> "" ->
  all_chars is_digit target = true ->
  _lex target = [mkToken NUMBER target].
Proof.
  intros Hne H. destruct target as [|c s]; [contradiction|].
  simpl in H. apply andb_true_iff in H. destruct H as [Hc Hs].
  unfold _lex. cbn [finditer].
  rewrite (match_spec_digit c s Hc), Nat.add_0_r, (span_all is_digit s Hs).
  rewrite (finditer_skip token_spec s _ _ (le_n _)).
  change (string_take (S (String.length s)) (String c s))
    with (String c (string_take (String.length s) s)).
  rewrite string_take_all. reflexivity.
Qed.

(** X3. A text made of digits, at least one, is one NUMBER token, with the
    whole text. *)
Theorem digits_are_one_number (target : string) :
  target <> "" ->
  all_chars is_digit target = true ->
  _lex target = [mkToken NUMBER target].
Proof. exact (lex_digits target). Qed.

Lemma digits_are_one_number_witness : _lex "2024" = [mkToken NUMBER "2024"].
Proof.
  apply (digits_are_one_number "2024"); [discriminate|reflexivity].
Defined.

(** A literal pattern consumes its text and nothing else. *)
Lemma match_atoms_lit (kw : string) (r : list atom) :
  forall prev s,
    match_atoms prev s (lit kw ++ r)%list
    = match strip_prefix kw s with
      | Some rest =>
          option_map (Nat.add (String.length kw))
            (match_atoms (last_char kw prev) rest r)
      | None => None
      end.
Proof.
  induction kw as [|a kw IH]; intros prev s.
  - simpl. destruct (match_atoms prev s r); reflexivity.
  - change (lit (String a kw) ++ r)%list with (Chr a :: (lit kw ++ r)%list).
    cbn [match_atoms strip_prefix].
    destruct s as [|b s]; [reflexivity|].
    destruct (Ascii.eqb a b) eqn:E; [|reflexivity].
    apply Ascii.eqb_eq in E. subst b.
    rewrite IH. cbn [last_char String.length].
    destruct (strip_prefix kw s); [|reflexivity].
    destruct (match_atoms (last_char kw (Some a)) s0 r); reflexivity.
Qed.

Lemma strip_prefix_nonword (kw s : string) :
  all_chars is_word kw = false -> all_chars is_word s = true ->
  strip_prefix kw s = None.
Proof.
  revert s. induction kw as [|a kw IH]; intros s Hkw Hs; [discriminate|].
  destruct s as [|b s]; [reflexivity|].
  cbn [strip_prefix]. destruct (Ascii.eqb a b) eqn:E; [|reflexivity].
  apply Ascii.eqb_eq in E. subst b.
  simpl in Hkw, Hs. apply andb_true_iff in Hs. destruct Hs as [Hb Hs].
  rewrite Hb in Hkw. apply IH; assumption.
Qed.

(** A literal with a character that is not a word character does not match
    a text of word characters, whatever comes before or after it in the
    pattern. *)
Lemma match_lit_nonword (kw s : string) (prev : option ascii) (r : list atom) :
  all_chars is_word kw = false -> all_chars is_word s = true ->
  match_atoms prev s (lit kw ++ r)%list = None.
Proof.
  intros Hkw Hs. rewrite match_atoms_lit, (strip_prefix_nonword kw s Hkw Hs).
  reflexivity.
Qed.

Lemma match_lit_nonword_alone (kw s : string) (prev : option ascii) :
  all_chars is_word kw = false -> all_chars is_word s = true ->
  match_atoms prev s (lit kw) = None.
Proof.
  intros Hkw Hs. rewrite <- (app_nil_r (lit kw)).
  apply match_lit_nonword; assumption.
Qed.

Lemma match_Bnd_none (prev : option ascii) (s : string) (r : list atom) :
  match_atoms prev s r = None -> match_atoms prev s (Bnd :: r) = None.
Proof.
  intro H. cbn [match_atoms]. rewrite H.
  destruct (xorb (word_opt prev) (word_opt (head_char s))); reflexivity.
Qed.

Lemma match_word_nonword (kw s : string) (prev : option ascii) :
  all_chars is_word kw = false -> all_chars is_word s = true ->
  match_atoms prev s (word kw) = None.
Proof.
  intros Hkw Hs. unfold word. apply match_Bnd_none, match_lit_nonword; assumption.
Qed.

Lemma last_char_word (kw : string) (p : option ascii) :
  all_chars is_word kw = true -> word_opt p = true ->
  word_opt (last_char kw p) = true.
Proof.
  revert p. induction kw as [|a kw IH]; intros p Hkw Hp; [exact Hp|].
  simpl in Hkw. apply andb_true_iff in Hkw. destruct Hkw as [Ha Hkw].
  cbn [last_char]. apply IH; [exact Hkw|exact Ha].
Qed.

Lemma strip_prefix_some (kw s rest : string) :
  strip_prefix kw s = Some rest -> s = kw ++ rest.
Proof.
  revert s. induction kw as [|a kw IH]; intros s H.
  - injection H as ->. reflexivity.
  - destruct s as [|b s]; [discriminate|].
    cbn [strip_prefix] in H. destruct (Ascii.eqb a b) eqn:E; [|discriminate].
    apply Ascii.eqb_eq in E. subst b. rewrite (IH s H). reflexivity.
Qed.

Lemma all_chars_app (p : ascii -> bool) (a b : string) :
  all_chars p (a ++ b) = all_chars p a && all_chars p b.
Proof.
  induction a as [|c a IH]; simpl; [reflexivity|].
  rewrite IH, andb_assoc. reflexivity.
Qed.

(** A reserved word between word boundaries matches a text of word
    characters only if the text is the word itself. *)
Lemma match_word_other (kw s : string) :
  kw <> "" -> all_chars is_word kw = true -> all_chars is_word s = true ->
  s <> kw ->
  match_atoms None s (word kw) = None.
Proof.
  intros Hne Hkw Hs Hdiff. unfold word. apply match_Bnd_none.
  rewrite match_atoms_lit.
  destruct (strip_prefix kw s) as [rest|] eqn:E; [|reflexivity].
  apply strip_prefix_some in E. subst s.
  rewrite all_chars_app, Hkw in Hs. simpl in Hs.
  destruct rest as [|c rest].
  - exfalso. apply Hdiff. apply append_empty_r.
  - simpl in Hs. apply andb_true_iff in Hs. destruct Hs as [Hc _].
    cbn [match_atoms head_char word_opt].
    destruct kw as [|a kw]; [contradiction|].
    simpl in Hkw. apply andb_true_iff in Hkw. destruct Hkw as [Ha Hkw].
    cbn [last_char]. rewrite (last_char_word kw (Some a) Hkw Ha), Hc.
    reflexivity.
Qed.

Lemma not_reserved (s kw : string) :
  existsb (String.eqb s) reserved = false -> In kw reserved -> s <> kw.
Proof.
  intros H Hin E. subst kw.
  assert (existsb (String.eqb s) reserved = true); [|congruence].
  apply existsb_exists. exists s. split; [exact Hin|apply String.eqb_refl].
Qed.

Lemma is_word_not_quote (c : ascii) : is_word c = true -> is_quote c = false.
Proof.
  destruct c as [[] [] [] [] [] [] [] []]; vm_compute; intro H;
    first [reflexivity | discriminate H].
Qed.

Ltac reserved_word Hs Hres :=
  rewrite match_word_other;
  [ | discriminate | reflexivity | exact Hs
    | apply (not_reserved _ _ Hres); simpl; tauto ].

Ltac nonword_pattern Hs :=
  first [ rewrite match_word_nonword; [ | reflexivity | exact Hs ]
        | rewrite match_lit_nonword_alone; [ | reflexivity | exact Hs ]
        | rewrite (match_Bnd_none _ _ (lit "right join"));
          [ | apply match_lit_nonword_alone; [reflexivity | exact Hs] ] ].

(** X4. A text of word characters that does not start with a digit and is
    not a reserved word is one IDENTIFIER token, with the whole text. *)
Theorem identifier_is_one_token (c : ascii) (s : string) :
  all_chars is_word (String c s) = true ->
  is_digit c = false ->
  existsb (String.eqb (String c s)) reserved = false ->
  _lex (String c s) = [mkToken IDENTIFIER (String c s)].
Proof.
  intros Hs Hd Hres.
  assert (Hc : is_word c = true).
  { simpl in Hs. apply andb_true_iff in Hs. exact (proj1 Hs). }
  assert (Hs' : all_chars is_word s = true).
  { simpl in Hs. apply andb_true_iff in Hs. exact (proj2 Hs). }
  unfold _lex. cbn [finditer].
  assert (E : match_spec token_spec None (String c s)
              = Some (S (String.length s + 0), IDENTIFIER)).
  { unfold token_spec. cbn [match_spec match_alternatives].
    repeat first [ reserved_word Hs Hres | nonword_pattern Hs ].
    cbn [match_atoms span]. rewrite Hd, (is_word_not_quote c Hc), Hc.
    rewrite (span_all is_word s Hs'). reflexivity. }
  rewrite E, Nat.add_0_r.
  rewrite (finditer_skip token_spec s _ _ (le_n _)).
  change (string_take (S (String.length s)) (String c s))
    with (String c (string_take (String.length s) s)).
  rewrite string_take_all. reflexivity.
Qed.

Lemma identifier_is_one_token_witness :
  _lex "counter_1" = [mkToken IDENTIFIER "counter_1"].
Proof.
  apply (identifier_is_one_token "c" "ounter_1"); reflexivity.
Defined.

(** ** The exceptions of the parser *)

Lemma ro_ret (A : exn -> Prop) {T : Type} (a : T) : raises_only A (ret a).
Proof. intros st e H. discriminate H. Qed.

Lemma ro_raise (A : exn -> Prop) {T : Type} (e : exn) :
  A e -> raises_only A (@raise T e).
Proof. intros HA st e' H. injection H as <-. exact HA. Qed.

Lemma ro_pbind (A : exn -> Prop) {T U : Type} (m : parser T) (f : T -> parser U) :
  raises_only A m -> (forall a, raises_only A (f a)) -> raises_only A (pbind m f).
Proof.
  intros Hm Hf st e H. unfold pbind in H.
  destruct (m st) as [[a st']|e'] eqn:E.
  - exact (Hf a st' e H).
  - injection H as <-. exact (Hm st e' E).
Qed.

Lemma ro_while (A : exn -> Prop) {T : Type} (cond : parser bool)
    (body : T -> parser T) (s : T) :
  A OutOfFuel -> raises_only A cond -> (forall s, raises_only A (body s)) ->
  raises_only A (while_ cond body s).
Proof.
  intros HA Hc Hb st. unfold while_. generalize (S (length st)). intro k.
  revert s st. induction k as [|k IH]; intros s st e H.
  - injection H as <-. exact HA.
  - cbn [while_fuel] in H. revert H. apply ro_pbind; [exact Hc|].
    intros [|]; [|apply ro_ret].
    apply ro_pbind; [apply Hb|]. intros s' st'. apply IH.
Qed.

Ltac ro_step :=
  first
    [ apply ro_ret
    | apply ro_raise; exact I
    | apply ro_pbind; [ | intro ]
    | apply ro_while; [ exact I | | intro ]
    | assumption
    | match goal with
      | |- raises_only _ (if ?b then _ else _) => destruct b
      | |- raises_only _ (match ?x with _ => _ end) => destruct x
      end ].

Lemma ro_consume (token_type : TokenType) : raises_only parser_exn (_consume token_type).
Proof.
  intros st e. unfold _consume, pbind, lookahead_type, _lookahead, raise, ret,
    get_next_token.
  destruct st as [|t st]; simpl; [intro H; injection H as <-; exact I|].
  destruct (TokenType_eqb (type t) token_type); simpl; intro H;
    [discriminate H|injection H as <-; exact I].
Qed.

Lemma ro_lookahead_type : raises_only parser_exn lookahead_type.
Proof.
  intros [|t st] e H; [injection H as <-; exact I|discriminate H].
Qed.

Lemma ro_lookahead_value : raises_only parser_exn lookahead_value.
Proof.
  intros [|t st] e H; [injection H as <-; exact I|discriminate H].
Qed.

Lemma ro_lookahead : raises_only parser_exn _lookahead.
Proof. intros st e H. discriminate H. Qed.

Ltac ro :=
  repeat first
    [ apply ro_consume | apply ro_lookahead_type | apply ro_lookahead_value
    | apply ro_lookahead | ro_step ].

Lemma ro_binary_expression (func : parser pyobj) (token_type : TokenType)
    (type : string) :
  raises_only parser_exn func ->
  raises_only parser_exn (binary_expression func token_type type).
Proof. intro H. unfold binary_expression, present_and_type_is. ro. Qed.

Lemma ro_union_join_expression (func : parser pyobj) :
  raises_only parser_exn func ->
  raises_only parser_exn (union_join_expression func).
Proof. intro H. unfold union_join_expression, present_and_type_is. ro. Qed.

Lemma ro_identifier_expression : raises_only parser_exn identifier_expression.
Proof. unfold identifier_expression, present_and_type_is. ro. Qed.

Lemma int_raises (s : string) (e : exn) : int s = Raise e -> e = ValueError.
Proof.
  unfold int. destruct s as [|c s]; [intro H; injection H as <-; reflexivity|].
  destruct (int_digits 0 (String c s));
    [destruct (Nat.ltb int_max_str_digits (String.length (String c s)))|];
    intro H; first [discriminate H | injection H as <-; reflexivity].
Qed.

Lemma ro_numeric_literal : raises_only parser_exn numeric_literal.
Proof.
  unfold numeric_literal. apply ro_pbind; [apply ro_consume|]. intro t.
  destruct (int (value t)) as [z|e] eqn:E; [apply ro_ret|].
  apply ro_raise. rewrite (int_raises _ _ E). exact I.
Qed.

Lemma ro_literals : raises_only parser_exn literals.
Proof.
  unfold literals, string_literal, null_literal.
  repeat first [ apply ro_numeric_literal | apply ro_consume
               | apply ro_lookahead_type | ro_step ].
Qed.

Lemma ro_array_expression : raises_only parser_exn array_expression.
Proof.
  unfold array_expression, type_is_not, append.
  repeat first [ apply ro_literals | apply ro_consume
               | apply ro_lookahead_type | ro_step ].
Qed.

Ltac ro_rules :=
  repeat first
    [ apply ro_binary_expression | apply ro_union_join_expression
    | apply ro_identifier_expression | apply ro_literals | apply ro_array_expression
    | apply ro_consume | apply ro_lookahead_type | apply ro_lookahead_value
    | apply ro_lookahead | ro_step ].

(** Every rule, with any budget, raises only the exceptions of the parser. *)
Lemma rules_raise_only (n : nat) : forall r, raises_only parser_exn (run r n).
Proof.
  induction n as [|n IH]; intro r.
  - destruct r; apply ro_raise; exact I.
  - pose proof (IH Rstatement) as H1.
    pose proof (IH Rvariable_assignment_statement) as H2.
    pose proof (IH Rfilter_statement_list) as H3.
    pose proof (IH Rfilter_statement) as H4.
    pose proof (IH Rblock_statement) as H5.
    pose proof (IH Rcolumn_assignment_list) as H6.
    pose proof (IH Rcolumn_assignment_statement) as H7.
    pose proof (IH Rproject_expression) as H8.
    pose proof (IH Rparenthesized_expression) as H9.
    pose proof (IH Rmatch_expression) as H10.
    pose proof (IH Rcase_expression) as H11.
    pose proof (IH Rfunctional_expression) as H12.
    pose proof (IH Rexpression) as H13.
    pose proof (IH Rover_expression) as H14.
    pose proof (IH Rjoin_expr) as H15.
    pose proof (IH Rlogical_or) as H16.
    pose proof (IH Rlogical_and) as H17.
    pose proof (IH Requality_expression) as H18.
    pose proof (IH Rrelational_expression) as H19.
    pose proof (IH Radditive_expression) as H20.
    pose proof (IH Rmultiplicative_expression) as H21.
    pose proof (IH Rmembership_expression) as H22.
    pose proof (IH Runary_expression) as H23.
    pose proof (IH Rprimary_expression) as H24.
    pose proof (IH Rpartition_by_expression) as H25.
    clear IH. cbn [run] in *.
    destruct r; cbn [run]; simpl;
      unfold type_is, type_is_not, value_in, append; ro_rules.
Qed.

(** X5. Whatever the text, [parse] raises neither EOFError nor KeyError,
    IndexError or TypeError: when it fails, it is with SyntaxError, with
    AttributeError (an attribute of the absent lookahead) or with
    ValueError. *)
Theorem parse_raises_no_EOFError (target : string) (e : exn) :
  parse target = Raise e ->
  e <> EOFError /\ e <> KeyError /\ e <> IndexError /\ e <> TypeError.
Proof.
  unfold parse. intro H.
  destruct (statement_list (parse_fuel (_lex target)) (_lex target))
    as [[ast st]|e'] eqn:E; [discriminate H|].
  injection H as ->.
  assert (Hp : parser_exn e).
  { revert E. apply (ro_pbind parser_exn).
    - apply ro_while; [exact I| |intro s].
      + unfold present. ro_rules.
      + unfold append. apply ro_pbind; [|intro; apply ro_ret].
        apply (rules_raise_only _ Rstatement).
    - intro a. apply ro_ret. }
  destruct e; try contradiction; repeat split; discriminate.
Qed.

Lemma parse_raises_no_EOFError_witness :
  AttributeError <> EOFError /\ AttributeError <> KeyError
  /\ AttributeError <> IndexError /\ AttributeError <> TypeError.
Proof.
  apply (parse_raises_no_EOFError "let x =" AttributeError).
  vm_compute. reflexivity.
Defined.

(** ** Termination of the parser *)

Lemma raise_cast {A B : Type} (e : exn) :
  @Raise A e <> Raise OutOfFuel -> @Raise B e <> Raise OutOfFuel.
Proof. intros H E. injection E as ->. apply H. reflexivity. Qed.

Lemma good_ret (N : nat) {T : Type} (a : T) (k : nat) : good N (ret a) k false.
Proof.
  intros st H. split; [discriminate|].
  intros a' st' E. injection E as <- <-. lia.
Qed.

Lemma good_raise (N : nat) {T : Type} (e : exn) (k : nat) (strict : bool) :
  e <> OutOfFuel -> good N (@raise T e) k strict.
Proof.
  intros He st H. split; [|discriminate].
  intro E. injection E as ->. contradiction.
Qed.

Lemma good_weaken (N : nat) {T : Type} (p : parser T) (k k' : nat) (strict : bool) :
  good N p k strict -> k <= k' -> good N p k' false.
Proof.
  intros Hp Hk st H. destruct (Hp st ltac:(lia)) as [H1 H2].
  split; [exact H1|]. intros a st' E. specialize (H2 a st' E).
  destruct strict; lia.
Qed.

Lemma good_stronger (N : nat) {T : Type} (p : parser T) (k k' : nat) (strict : bool) :
  good N p k strict -> k <= k' -> good N p k' strict.
Proof. intros Hp Hk st H. exact (Hp st ltac:(lia)). Qed.

(** After a step that shortens the stream, any rule may be called. *)
Lemma good_bind_l (N : nat) {T U : Type} (p : parser T) (f : T -> parser U) (k : nat) :
  good N p k true -> (forall a, good N (f a) 20 false) -> good N (pbind p f) k true.
Proof.
  intros Hp Hf st H. unfold pbind. destruct (Hp st H) as [H1 H2].
  destruct (p st) as [[a st1]|e] eqn:E.
  - specialize (H2 a st1 eq_refl).
    destruct (Hf a st1 ltac:(lia)) as [H3 H4].
    split; [exact H3|]. intros b st' E'. specialize (H4 b st' E'). lia.
  - split; [exact (raise_cast e H1)|discriminate].
Qed.

Lemma good_bind_r (N : nat) {T U : Type} (p : parser T) (f : T -> parser U)
    (k : nat) (strict : bool) :
  good N p k false -> (forall a, good N (f a) k strict) ->
  good N (pbind p f) k strict.
Proof.
  intros Hp Hf st H. unfold pbind. destruct (Hp st H) as [H1 H2].
  destruct (p st) as [[a st1]|e] eqn:E.
  - specialize (H2 a st1 eq_refl).
    destruct (Hf a st1 ltac:(lia)) as [H3 H4].
    split; [exact H3|]. intros b st' E'. specialize (H4 b st' E'). lia.
  - split; [exact (raise_cast e H1)|discriminate].
Qed.

Lemma good_while (N : nat) {T : Type} (cond : parser bool) (body : T -> parser T)
    (s : T) (k : nat) :
  good N cond k false -> (forall s, good N (body s) k true) ->
  good N (while_ cond body s) k false.
Proof.
  intros Hc Hb st H. unfold while_.
  assert (G : forall n s st, k + 20 * length st <= N -> length st < n ->
              while_fuel n cond body s st <> Raise OutOfFuel
              /\ forall a st', while_fuel n cond body s st = Ok (a, st') ->
                   length st' + 0 <= length st).
  { clear s st H. induction n as [|n IH]; intros s st H Hn; [lia|].
    cbn [while_fuel]. unfold pbind.
    destruct (Hc st H) as [H1 H2].
    destruct (cond st) as [[b st1]|e] eqn:E;
      [|split; [exact (raise_cast e H1)|discriminate]].
    specialize (H2 b st1 eq_refl).
    destruct b.
    - destruct (Hb s st1 ltac:(lia)) as [H3 H4].
      destruct (body s st1) as [[s' st2]|e] eqn:E2;
        [|split; [exact (raise_cast e H3)|discriminate]].
      specialize (H4 s' st2 eq_refl).
      destruct (IH s' st2 ltac:(lia) ltac:(lia)) as [H5 H6].
      split; [exact H5|]. intros a st' E'. specialize (H6 a st' E'). lia.
    - split; [discriminate|]. intros a st' E'. injection E' as <- <-. lia. }
  apply G; [exact H|lia].
Qed.

Lemma good_consume (N : nat) (token_type : TokenType) (k : nat) :
  good N (_consume token_type) k true.
Proof.
  intros st H. destruct st as [|t st].
  - split; [discriminate|discriminate].
  - unfold _consume, pbind, lookahead_type, _lookahead, ret, raise, get_next_token.
    simpl. destruct (TokenType_eqb (type t) token_type); simpl.
    + split; [discriminate|]. intros a st' E. injection E as <- <-. simpl. lia.
    + split; [discriminate|discriminate].
Qed.

Lemma good_lookahead (N : nat) (k : nat) : good N _lookahead k false.
Proof.
  intros st H. split; [discriminate|].
  intros a st' E. injection E as <- <-. lia.
Qed.

(** Solves [good] goals by following the structure of the parser. *)
Ltac gd :=
  lazymatch goal with
  | |- good _ (ret _) _ false => apply good_ret
  | |- good _ (raise _) _ _ => apply good_raise; discriminate
  | |- good _ _lookahead _ false => apply good_lookahead
  | |- good _ (_consume _) _ true => apply good_consume
  | |- good _ (_consume _) ?k false =>
      apply (good_weaken _ _ k k true); [apply good_consume|lia]
  | |- good _ (pbind _ _) _ true =>
      first [ apply good_bind_l; [solve [gd] | intro; solve [gd]]
            | apply good_bind_r; [solve [gd] | intro; solve [gd]] ]
  | |- good _ (pbind _ _) ?k false =>
      first [ apply good_bind_r; [solve [gd] | intro; solve [gd]]
            | apply (good_weaken _ _ k k true);
              [apply good_bind_l; [solve [gd] | intro; solve [gd]]|lia] ]
  | |- good _ (while_ _ _ _) _ false =>
      apply good_while; [solve [gd] | intro; solve [gd]]
  | |- good _ (if ?b then _ else _) _ _ => destruct b; gd
  | |- good _ (match ?x with _ => _ end) _ _ => destruct x; gd
  | |- good _ (fun _ => _) _ _ => fail
  | |- good ?N ?p ?k ?strict =>
      first
        [ assumption
        | match goal with
          | H : good N p ?k' true |- _ =>
              first [ apply (good_stronger N p k' k true H); lia
                    | apply (good_weaken N p k' k true H); lia ]
          end
        | progress unfold lookahead_type, lookahead_value, present, type_is,
            type_is_not, present_and_type_is, value_in, append; gd ]
  end.

Lemma good_binary_expression (N : nat) (func : parser pyobj) (token_type : TokenType)
    (type : string) (k : nat) :
  k <= 20 -> good N func k true ->
  good N (binary_expression func token_type type) k true.
Proof. intros Hk H. unfold binary_expression. gd. Qed.

Lemma good_union_join_expression (N : nat) (func : parser pyobj) (k : nat) :
  k <= 20 -> good N func k true -> good N (union_join_expression func) k true.
Proof. intros Hk H. unfold union_join_expression. gd. Qed.

Lemma good_identifier_expression (N k : nat) : good N identifier_expression k true.
Proof. unfold identifier_expression. gd. Qed.

Lemma good_literals (N k : nat) : good N literals k true.
Proof.
  unfold literals, string_literal, null_literal, numeric_literal.
  apply good_bind_r; [gd|]. intro ty.
  destruct (TokenType_eqb ty STRING); [gd|].
  destruct (TokenType_eqb ty NUMBER); [|gd].
  apply good_bind_l; [gd|]. intro t.
  destruct (int (value t)) as [z|e] eqn:E; [gd|].
  apply good_raise. rewrite (int_raises _ _ E). discriminate.
Qed.

Lemma good_array_expression (N k : nat) : good N array_expression k true.
Proof.
  pose proof (good_literals N 20) as H.
  unfold array_expression. gd.
Qed.

(** Every rule, called with a budget above its rank by twenty times the
    length of the stream, keeps within its budget, and consumes a token when
    it returns. *)
Lemma rules_good (n : nat) : forall r, good n (run r n) (rank r) true.
Proof.
  induction n as [|n IH]; intro r.
  - intros st H. destruct r; simpl in H; lia.
  - assert (C : forall r k, rank r < k -> good (S n) (run r n) k true).
    { intros r' k Hk st H. apply (IH r' st). lia. }
    pose proof (C Rstatement 20 ltac:(simpl; lia)) as H1.
    pose proof (C Rvariable_assignment_statement 16 ltac:(simpl; lia)) as H2.
    pose proof (C Rfilter_statement_list 16 ltac:(simpl; lia)) as H3.
    pose proof (C Rfilter_statement 2 ltac:(simpl; lia)) as H4.
    pose proof (C Rblock_statement 16 ltac:(simpl; lia)) as H5.
    pose proof (C Rcolumn_assignment_list 16 ltac:(simpl; lia)) as H6.
    pose proof (C Rcolumn_assignment_statement 15 ltac:(simpl; lia)) as H7.
    pose proof (C Rproject_expression 2 ltac:(simpl; lia)) as H8.
    pose proof (C Rparenthesized_expression 2 ltac:(simpl; lia)) as H9.
    pose proof (C Rmatch_expression 2 ltac:(simpl; lia)) as H10.
    pose proof (C Rcase_expression 2 ltac:(simpl; lia)) as H11.
    pose proof (C Rfunctional_expression 2 ltac:(simpl; lia)) as H12.
    pose proof (C Rexpression 14 ltac:(simpl; lia)) as H13.
    pose proof (C Rover_expression 13 ltac:(simpl; lia)) as H14.
    pose proof (C Rjoin_expr 12 ltac:(simpl; lia)) as H15.
    pose proof (C Rlogical_or 11 ltac:(simpl; lia)) as H16.
    pose proof (C Rlogical_and 10 ltac:(simpl; lia)) as H17.
    pose proof (C Requality_expression 9 ltac:(simpl; lia)) as H18.
    pose proof (C Rrelational_expression 8 ltac:(simpl; lia)) as H19.
    pose proof (C Radditive_expression 7 ltac:(simpl; lia)) as H20.
    pose proof (C Rmultiplicative_expression 6 ltac:(simpl; lia)) as H21.
    pose proof (C Rmembership_expression 5 ltac:(simpl; lia)) as H22.
    pose proof (C Runary_expression 4 ltac:(simpl; lia)) as H23.
    pose proof (C Rprimary_expression 3 ltac:(simpl; lia)) as H24.
    pose proof (C Rpartition_by_expression 2 ltac:(simpl; lia)) as H25.
    pose proof (good_identifier_expression (S n) 2) as I1.
    pose proof (good_literals (S n) 2) as I2.
    pose proof (good_array_expression (S n) 2) as I3.
    clear IH C. cbn [run] in *.
    destruct r; cbn [run rank]; simpl;
      first [ apply good_binary_expression; [lia|assumption]
            | apply good_union_join_expression; [lia|assumption]
            | gd ].
Qed.

(** X6. The parser terminates: whatever the text, [parse] does not exhaust
    its budget of nested calls, twenty for each token and twenty more. *)
Theorem parse_terminates (target : string) : parse target <> Raise OutOfFuel.
Proof.
  unfold parse.
  pose proof (rules_good (parse_fuel (_lex target)) Rstatement) as H.
  cbn [run rank] in H.
  assert (G : good (parse_fuel (_lex target))
                (statement_list (parse_fuel (_lex target))) 16 false).
  { unfold statement_list. gd. }
  destruct (G (_lex target)) as [G1 _]; [unfold parse_fuel; lia|].
  destruct (statement_list (parse_fuel (_lex target)) (_lex target)) as [[ast st]|e];
    [discriminate|].
  exact (raise_cast e G1).
Qed.

(** X7. With a budget above its rank by twenty times the length of the
    stream, a rule that returns has consumed at least one token: no rule
    succeeds on the empty stream, and no loop of the parser can turn
    without advancing. *)
Theorem rules_consume_a_token (r : rule) (n : nat) (st st' : list Token) (a : pyobj) :
  rank r + 20 * length st <= n ->
  run r n st = Ok (a, st') ->
  length st' < length st.
Proof.
  intros H E. destruct (rules_good n r st H) as [_ G].
  specialize (G a st' E). lia.
Qed.

Lemma rules_consume_a_token_witness :
  length (@nil Token) < length (_lex "a + b").
Proof.
  apply (rules_consume_a_token Rexpression 80 (_lex "a + b") []
           (BinaryExpression "+" (IdentifierExpression "a") (IdentifierExpression "b"))).
  - vm_compute. lia.
  - vm_compute. reflexivity.
Defined.

Lemma while_fuel_exit {T : Type} (cond : parser bool) (body : T -> parser T) :
  forall k s st a st',
    while_fuel k cond body s st = Ok (a, st') ->
    exists st0, cond st0 = Ok (false, st').
Proof.
  induction k as [|k IH]; intros s st a st' H; [discriminate H|].
  cbn [while_fuel] in H. unfold pbind in H.
  destruct (cond st) as [[b st1]|e] eqn:E; [|discriminate H].
  destruct b.
  - destruct (body s st1) as [[s' st2]|e]; [|discriminate H].
    exact (IH s' st2 a st' H).
  - injection H as <- <-. exists st. exact E.
Qed.

(** X8. When the list of statements is parsed, no token is left: the loop of
    [statement_list] ends on the exhausted stream only, and what it returns
    is a StatementList node. *)
Theorem statement_list_consumes_all (fuel : nat) (tokens st' : list Token) (ast : pyobj) :
  statement_list fuel tokens = Ok (ast, st') ->
  st' = [] /\ exists statements, ast = StatementList statements.
Proof.
  unfold statement_list, pbind. intro H.
  destruct (while_ present (append (statement fuel)) [] tokens)
    as [[statements st1]|e] eqn:E; [|discriminate H].
  injection H as <- <-. split; [|exists statements; reflexivity].
  unfold while_ in E. apply while_fuel_exit in E. destruct E as [st0 E].
  destruct st0 as [|t st0]; [|discriminate E].
  injection E as <-. reflexivity.
Qed.

Lemma statement_list_consumes_all_witness :
  @nil Token = []
  /\ exists statements,
       StatementList
         [VariableAssignment "x"
            (BinaryExpression "+" (IdentifierExpression "a") (NumericLiteral 1))]
       = StatementList statements.
Proof.
  apply (statement_list_consumes_all 100 (_lex "let x = a + 1") []).
  vm_compute. reflexivity.
Defined.

(** ** The grammar *)

(** X21. The ladder of precedences, on identifiers of any names and
    operators of any texts: in [x or y and z] the conjunction is the right
    operand of the disjunction; a comparison binds tighter than [and], an
    addition tighter than a comparison, a multiplication tighter than an
    addition, a membership test tighter than a multiplication; and of two
    operators the one met first is applied first when it binds tighter. *)
Theorem precedence_ladder (x y z o1 o2 : string) (n : nat) :
  let X := IdentifierExpression x in
  let Y := IdentifierExpression y in
  let Z := IdentifierExpression z in
  expression (20 + n) [ident x; mkToken LOGICAL_OR o1; ident y;
                       mkToken LOGICAL_AND o2; ident z]
  = Ok (BinaryExpression o1 X (BinaryExpression o2 Y Z), [])
  /\ expression (20 + n) [ident x; mkToken LOGICAL_AND o1; ident y;
                          mkToken COMPARISON_OPERATOR o2; ident z]
     = Ok (BinaryExpression o1 X (BinaryExpression o2 Y Z), [])
  /\ expression (20 + n) [ident x; mkToken COMPARISON_OPERATOR o1; ident y;
                          mkToken ADDITIVE_OPERATOR o2; ident z]
     = Ok (BinaryExpression o1 X (BinaryExpression o2 Y Z), [])
  /\ expression (20 + n) [ident x; mkToken ADDITIVE_OPERATOR o1; ident y;
                          mkToken MULTIPLICATIVE_OPERATOR o2; ident z]
     = Ok (BinaryExpression o1 X (BinaryExpression o2 Y Z), [])
  /\ expression (20 + n) [ident x; mkToken MULTIPLICATIVE_OPERATOR o1; ident y;
                          mkToken MEMBERSHIP_OPERATOR o2; ident z]
     = Ok (BinaryExpression o1 X
             (PDict [("type", PStr "MembershipExpression"); ("operator", PStr o2);
                     ("left", Y); ("right", Z)]), [])
  /\ expression (20 + n) [ident x; mkToken LOGICAL_AND o1; ident y;
                          mkToken LOGICAL_OR o2; ident z]
     = Ok (BinaryExpression o2 (BinaryExpression o1 X Y) Z, []).
Proof. repeat split. Qed.


(** A loop that is known to end returns its last state. *)
Lemma while_iterates {S : Type} (cond : parser bool) (body : S -> parser S)
    (s s' : S) (st st' : list Token) :
  iterates cond body s st s' st' ->
  while_ cond body s st = Ok (s', st').
Proof.
  intro H. unfold while_.
  assert (G : forall k, length st < k -> while_fuel k cond body s st = Ok (s', st')).
  { induction H as [s st Hc|s s1 s' st st1 st' Hc Hb Hlen _ IH]; intros k Hk.
    - destruct k as [|k]; [lia|]. cbn [while_fuel]. unfold pbind. rewrite Hc.
      reflexivity.
    - destruct k as [|k]; [lia|]. cbn [while_fuel]. unfold pbind. rewrite Hc, Hb.
      apply IH. lia. }
  apply G. lia.
Qed.

Lemma present_and_type_is_false (tt : TokenType) (st : list Token) :
  not_head tt st -> present_and_type_is tt st = Ok (false, st).
Proof.
  unfold not_head, present_and_type_is, pbind, _lookahead, ret.
  destruct st as [|t st]; [reflexivity|]. simpl. intro H.
  unfold TokenType_eqb. destruct (TokenType_eq_dec (type t) tt) as [E|E];
    [exfalso; apply H; rewrite E; reflexivity|reflexivity].
Qed.

(** A level of the ladder hands over what the level below returns when the
    next token is not its operator. *)
Lemma binary_expression_through (func : parser pyobj) (tt : TokenType) (ty : string)
    (st st' : list Token) (a : pyobj) :
  func st = Ok (a, st') -> not_head tt st' ->
  binary_expression func tt ty st = Ok (a, st').
Proof.
  intros Hf Hn. unfold binary_expression, pbind. rewrite Hf.
  apply while_iterates. constructor. apply present_and_type_is_false. exact Hn.
Qed.

Lemma union_join_expression_through (func : parser pyobj) (st st' : list Token)
    (a : pyobj) :
  func st = Ok (a, st') -> not_head JOINS st' ->
  union_join_expression func st = Ok (a, st').
Proof.
  intros Hf Hn. unfold union_join_expression, pbind. rewrite Hf.
  apply while_iterates. constructor. apply present_and_type_is_false. exact Hn.
Qed.

(** An identifier with no dot after it, at the level of the primary
    expressions and of the unary ones. *)
Lemma identifier_at_unary (n : nat) (x : string) (rest : list Token) :
  not_head DOT rest ->
  unary_expression (S (S n)) (ident x :: rest) = Ok (IdentifierExpression x, rest).
Proof.
  intro H.
  change (unary_expression (S (S n)) (ident x :: rest))
    with (pbind (while_ (present_and_type_is DOT)
                   (fun _id => _ <~ _consume DOT ;; t <~ _consume IDENTIFIER ;;
                               ret (_id ++ [value t])%list) [x])
            (fun _id =>
               let res := [("type", PStr "IdentifierExpression");
                           ("value", PStr (join "." _id))] in
               if Nat.ltb 1 (length _id)
               then ret (PDict (res ++ [("source_table", PStr (hd "" _id))])%list)
               else ret (PDict res)) rest).
  unfold pbind. rewrite (while_iterates _ _ [x] [x] rest rest); [reflexivity|].
  constructor. apply present_and_type_is_false. exact H.
Qed.

Lemma identifier_at_multiplicative (n : nat) (x : string) (rest : list Token) :
  not_heads tighter_than_additive rest ->
  multiplicative_expression (4 + n) (ident x :: rest)
  = Ok (IdentifierExpression x, rest).
Proof.
  intro H.
  change (multiplicative_expression (4 + n))
    with (binary_expression
            (binary_expression (unary_expression (S (S n))) MEMBERSHIP_OPERATOR
               "MembershipExpression")
            MULTIPLICATIVE_OPERATOR "BinaryExpression").
  apply binary_expression_through; [|apply H; simpl; tauto].
  apply binary_expression_through; [|apply H; simpl; tauto].
  apply identifier_at_unary. apply H. simpl. tauto.
Qed.

Lemma identifier_at_logical_or (n : nat) (x : string) (rest : list Token) :
  not_heads tighter_than_join rest ->
  logical_or (9 + n) (ident x :: rest) = Ok (IdentifierExpression x, rest).
Proof.
  intro H.
  change (logical_or (9 + n))
    with (binary_expression
            (binary_expression
               (binary_expression
                  (binary_expression
                     (binary_expression (multiplicative_expression (4 + n))
                        ADDITIVE_OPERATOR "BinaryExpression")
                     COMPARISON_OPERATOR "BinaryExpression")
                  EQUALITY "BinaryExpression")
               LOGICAL_AND "BinaryExpression")
            LOGICAL_OR "BinaryExpression").
  do 5 (apply binary_expression_through; [|apply H; simpl; tauto]).
  apply identifier_at_multiplicative.
  intros tt Hin. apply H. simpl in *. tauto.
Qed.

Lemma TokenType_eqb_refl (tt : TokenType) : TokenType_eqb tt tt = true.
Proof. unfold TokenType_eqb. destruct (TokenType_eq_dec tt tt); congruence. Qed.

Lemma consume_head (tt : TokenType) (v : string) (rest : list Token) :
  _consume tt (mkToken tt v :: rest) = Ok (mkToken tt v, rest).
Proof.
  unfold _consume, pbind, lookahead_type, _lookahead, ret, get_next_token.
  simpl. rewrite TokenType_eqb_refl. reflexivity.
Qed.

Lemma not_heads_nil (l : list TokenType) : not_heads l [].
Proof. intros tt _. discriminate. Qed.

Lemma not_heads_cons (l : list TokenType) (t : Token) (st : list Token) :
  ~ In (type t) l -> not_heads l (t :: st).
Proof. intros H tt Hin E. injection E as E. apply H. rewrite E. exact Hin. Qed.

Lemma chain_tokens_not_heads (operator_type : TokenType) (l : list TokenType)
    (chain : list (string * string)) :
  ~ In operator_type l -> not_heads l (chain_tokens operator_type chain).
Proof.
  intro H. destruct chain as [|c chain]; [apply not_heads_nil|].
  apply not_heads_cons. exact H.
Qed.

(** X22. Additions and subtractions associate to the left, whatever the
    length of the chain: the tokens of [x0 op1 x1 op2 x2 ...], identifiers
    separated by additive operators, are parsed into the tree in which each
    operator has all that is before it as its left operand. *)
Theorem additive_chain_nests_left (n : nat) (x0 : string) (chain : list (string * string)) :
  additive_expression (5 + n) (ident x0 :: chain_tokens ADDITIVE_OPERATOR chain)
  = Ok (chain_tree x0 chain, []).
Proof.
  change (additive_expression (5 + n))
    with (binary_expression (multiplicative_expression (4 + n)) ADDITIVE_OPERATOR
            "BinaryExpression").
  unfold binary_expression at 1, pbind.
  rewrite identifier_at_multiplicative
    by (apply chain_tokens_not_heads; simpl; intuition discriminate).
  apply while_iterates. unfold chain_tree.
  generalize (IdentifierExpression x0) as left.
  induction chain as [|[op x] chain IH]; intro left.
  - apply iterates_done. reflexivity.
  - cbn [chain_tokens flat_map app fold_left fst snd].
    eapply iterates_step; [reflexivity| |..|apply IH].
    + cbv beta. unfold pbind. rewrite consume_head.
      fold (chain_tokens ADDITIVE_OPERATOR chain).
      rewrite identifier_at_multiplicative
        by (apply chain_tokens_not_heads; simpl; intuition discriminate).
      reflexivity.
    + unfold chain_tokens. cbn [length]. lia.
Qed.

Lemma join_tokens_not_heads (chain : list join_step) :
  not_heads tighter_than_join (join_tokens chain).
Proof.
  destruct chain as [|s chain]; [apply not_heads_nil|].
  apply not_heads_cons. simpl. intuition discriminate.
Qed.

Lemma keyword_not_heads (v : string) (st : list Token) :
  not_heads tighter_than_join (mkToken KEYWORD v :: st).
Proof. apply not_heads_cons. simpl. intuition discriminate. Qed.

(** X23. Joins associate to the left, whatever the length of the chain: the
    tokens of [a join b1 on c1 join b2 on c2 ...], with identifiers for the
    tables and the conditions, are parsed by the expression rule into the
    tree in which each join has all that is before it as its left operand.
    The keyword before a condition is consumed whatever its text. *)
Theorem join_chain_parses_left_nested (n : nat) (a : string) (chain : list join_step) :
  Forall (fun s => contains "join" (step_type s) = true) chain ->
  expression (12 + n) (ident a :: join_tokens chain) = Ok (join_tree a chain, []).
Proof.
  intro H.
  change (expression (12 + n))
    with (binary_expression (union_join_expression (logical_or (9 + n))) OVER
            "BinaryExpression").
  apply binary_expression_through; [|discriminate].
  unfold union_join_expression at 1, pbind.
  rewrite identifier_at_logical_or by apply join_tokens_not_heads.
  apply while_iterates. unfold join_tree.
  generalize (IdentifierExpression a) as left.
  induction H as [|s chain Hs _ IH]; intro left.
  - apply iterates_done. reflexivity.
  - cbn [join_tokens flat_map app fold_left].
    eapply iterates_step; [reflexivity| |..|apply IH].
    + cbv beta. unfold pbind. rewrite consume_head.
      rewrite identifier_at_logical_or by apply keyword_not_heads.
      cbn [value]. rewrite Hs. rewrite consume_head.
      fold (join_tokens chain).
      rewrite identifier_at_logical_or by apply join_tokens_not_heads.
      reflexivity.
    + unfold join_tokens. cbn [length]. lia.
Qed.

Lemma join_chain_parses_left_nested_witness :
  expression 12 (_lex "a join b on c left join d where e")
  = Ok (JoinExpression "left join"
          (JoinExpression "join" (IdentifierExpression "a") (IdentifierExpression "b")
             (IdentifierExpression "c"))
          (IdentifierExpression "d") (IdentifierExpression "e"), []).
Proof.
  apply (join_chain_parses_left_nested 0 "a"
           [mkJoinStep "join" "b" "on" "c"; mkJoinStep "left join" "d" "where" "e"]).
  constructor; [reflexivity|]. constructor; [reflexivity|]. constructor.
Defined.

(** ** Identifiers and literals *)

Lemma pbind_ok {A B : Type} (m : parser A) (f : A -> parser B) (st st' : list Token)
    (a : A) :
  m st = Ok (a, st') -> pbind m f st = f a st'.
Proof. intro H. unfold pbind. rewrite H. reflexivity. Qed.

Lemma dotted_tokens_iterates (dot_text : string) (segments : list string)
    (rest : list Token) :
  not_head DOT rest ->
  forall acc,
    iterates (present_and_type_is DOT)
      (fun _id => _ <~ _consume DOT ;; t <~ _consume IDENTIFIER ;;
                  ret (_id ++ [value t])%list)
      acc (dotted_tokens dot_text segments ++ rest)%list
      (acc ++ segments)%list rest.
Proof.
  intro H. induction segments as [|x segments IH]; intro acc.
  - rewrite app_nil_r. apply iterates_done. apply present_and_type_is_false. exact H.
  - cbn [dotted_tokens flat_map app].
    eapply iterates_step; [reflexivity| | |].
    + cbv beta. unfold pbind. rewrite consume_head. unfold ident.
      rewrite consume_head. reflexivity.
    + unfold dotted_tokens, ident. cbn [length]. lia.
    + cbn [value]. replace (acc ++ x :: segments)%list with ((acc ++ [x]) ++ segments)%list
        by (rewrite <- app_assoc; reflexivity).
      apply IH.
Qed.

(** X25. A chain of identifiers separated by dots is one identifier node:
    its value is the segments joined by dots, and it has a [source_table],
    the first segment, exactly when there are two segments or more. *)
Theorem dotted_identifier_parsing (dot_text x0 : string) (segments : list string)
    (rest : list Token) :
  not_head DOT rest ->
  identifier_expression (ident x0 :: dotted_tokens dot_text segments ++ rest)%list
  = Ok (match segments with
        | [] => IdentifierExpression x0
        | _ => DottedIdentifier (join "." (x0 :: segments)) x0
        end, rest).
Proof.
  intro H. unfold identifier_expression, ident.
  rewrite (pbind_ok _ _ _ _ _ (consume_head IDENTIFIER x0 _)). cbn [value].
  rewrite (pbind_ok _ _ _ _ _
             (while_iterates _ _ _ _ _ _
                (dotted_tokens_iterates dot_text segments rest H [x0]))).
  destruct segments as [|x segments]; reflexivity.
Qed.

Lemma dotted_identifier_parsing_witness :
  identifier_expression (_lex "t.a.b + 1")
  = Ok (DottedIdentifier "t.a.b" "t", _lex "+ 1").
Proof.
  apply (dotted_identifier_parsing "." "t" ["a"; "b"] (_lex "+ 1")).
  discriminate.
Defined.

Lemma span_app_stop (p : ascii -> bool) (w s : string) (c : ascii) :
  all_chars p w = true -> p c = false ->
  span p (w ++ String c s) = String.length w.
Proof.
  intros Hw Hc. induction w as [|a w IH]; simpl.
  - rewrite Hc. reflexivity.
  - simpl in Hw. apply andb_true_iff in Hw. destruct Hw as [Ha Hw].
    rewrite Ha, (IH Hw). reflexivity.
Qed.

Lemma string_take_app (w s : string) : string_take (String.length w) (w ++ s) = w.
Proof. induction w as [|a w IH]; simpl; [destruct s; reflexivity|]. rewrite IH. reflexivity. Qed.

Lemma search_unquoted_strips (q1 q2 : ascii) (w : string) :
  is_quote q1 = true -> is_quote q2 = true ->
  w <> "" -> all_chars (fun a => negb (is_quote a)) w = true ->
  search_unquoted (String q1 (w ++ String q2 "")) = Some w.
Proof.
  intros H1 H2 Hne Hw. cbn [search_unquoted]. rewrite H1.
  destruct w as [|c w]; [contradiction|].
  change (String c w ++ String q2 "") with (String c (w ++ String q2 "")).
  cbn [search_unquoted].
  pose proof Hw as Hw'. simpl in Hw'. apply andb_true_iff in Hw'.
  destruct Hw' as [Hc _]. apply negb_true_iff in Hc. rewrite Hc.
  change (String c (w ++ String q2 "")) with (String c w ++ String q2 "").
  rewrite (span_app_stop _ (String c w) "" q2 Hw) by (rewrite H2; reflexivity).
  rewrite string_take_app. reflexivity.
Qed.

(** X26. The quotes of a string literal are taken off by the parser and put
    back, as double quotes, by the generator: a STRING token with a text of
    characters other than quotes between two quotes, of either kind, is
    parsed to a StringLiteral with that text, which is rendered between
    double quotes. *)
Theorem string_literal_requoted (q1 q2 : ascii) (w : string) (rest : list Token) :
  is_quote q1 = true -> is_quote q2 = true ->
  w <> "" -> all_chars (fun a => negb (is_quote a)) w = true ->
  string_literal (mkToken STRING (String q1 (w ++ String q2 "")) :: rest)
  = Ok (StringLiteral w, rest)
  /\ create_expression (StringLiteral w) = Ok (PStr (quoted w)).
Proof.
  intros H1 H2 Hne Hw. split; [|reflexivity].
  unfold string_literal, pbind. rewrite consume_head. cbn [value].
  rewrite (search_unquoted_strips q1 q2 w H1 H2 Hne Hw). reflexivity.
Qed.

Lemma string_literal_requoted_witness :
  string_literal (_lex "'abc' + 1") = Ok (StringLiteral "abc", _lex "+ 1")
  /\ create_expression (StringLiteral "abc") = Ok (PStr (quoted "abc")).
Proof.
  apply (string_literal_requoted "'" "'" "abc" (_lex "+ 1")); try reflexivity.
  discriminate.
Defined.

Lemma int_digits_acc (d : Decimal.uint) (a : positive) :
  int_digits (Zpos a) (NilEmpty.string_of_uint d) = Some (Zpos (Pos.of_uint_acc d a)).
Proof.
  revert a. induction d; intro a; cbn [NilEmpty.string_of_uint int_digits Pos.of_uint_acc];
    [reflexivity|..];
    match goal with
    | |- (if is_digit ?c then _ else _) = _ =>
        change (is_digit c) with true;
        let v := eval vm_compute in (digit_val c) in
        change (digit_val c) with v
    end; cbv iota; rewrite <- IHd; f_equal; lia.
Qed.

Lemma int_digits_zero (d : Decimal.uint) :
  int_digits 0 (NilEmpty.string_of_uint d) = Some (Z.of_N (Pos.of_uint d)).
Proof.
  induction d; cbn [NilEmpty.string_of_uint int_digits Pos.of_uint];
    [reflexivity|..];
    match goal with
    | |- (if is_digit ?c then _ else _) = _ =>
        change (is_digit c) with true;
        let v := eval vm_compute in (digit_val c) in
        change (digit_val c) with v
    end; cbv iota; first [exact IHd | apply int_digits_acc].
Qed.

Lemma string_of_uint_digits (d : Decimal.uint) :
  all_chars is_digit (NilEmpty.string_of_uint d) = true.
Proof. induction d; simpl; try reflexivity; exact IHd. Qed.

Lemma repr_int_pos (p : positive) :
  repr_int (Zpos p) = NilEmpty.string_of_uint (Pos.to_uint p)
  /\ repr_int (Zpos p) <> "".
Proof.
  unfold repr_int. cbn [Z.to_int NilZero.string_of_int].
  pose proof (DecimalPos.Unsigned.to_uint_nonnil p) as H.
  unfold NilZero.string_of_uint. destruct (Pos.to_uint p); try contradiction;
    split; try reflexivity; discriminate.
Qed.

Lemma int_repr_int (z : Z) :
  (0 <= z)%Z -> String.length (repr_int z) <= int_max_str_digits ->
  int (repr_int z) = Ok z.
Proof.
  intros H Hb. destruct z as [|p|p]; [reflexivity| |lia].
  destruct (repr_int_pos p) as [E Hne]. unfold int.
  destruct (repr_int (Zpos p)) as [|c s] eqn:Er; [contradiction|].
  rewrite (proj2 (Nat.ltb_ge _ _) Hb).
  rewrite E, int_digits_zero, DecimalPos.Unsigned.of_to. reflexivity.
Qed.

(** Above the bound [int] raises, whatever the digits. *)
Lemma int_above_the_bound (s : string) :
  int_max_str_digits < String.length s -> int s = Raise ValueError.
Proof.
  intro H. unfold int. destruct s as [|c s]; [reflexivity|].
  destruct (int_digits 0 (String c s)); [|reflexivity].
  rewrite (proj2 (Nat.ltb_lt _ _) H). reflexivity.
Qed.

Lemma repr_int_digits (z : Z) :
  (0 <= z)%Z -> repr_int z <> "" /\ all_chars is_digit (repr_int z) = true.
Proof.
  intro H. destruct z as [|p|p]; [split; [discriminate|reflexivity]| |lia].
  destruct (repr_int_pos p) as [E Hne]. split; [exact Hne|].
  rewrite E. apply string_of_uint_digits.
Qed.

(** X27. A decimal integer that is not negative and has no more digits than
    the interpreter converts (4300) goes through unchanged: its digits are
    lexed as one NUMBER token, the token is parsed to a NumericLiteral with
    the integer as its value, and the generator returns that integer, whose
    text is the same digits.  A NUMBER token of more digits is not parsed:
    [int] raises ValueError on its text. *)
Theorem decimal_integer_round_trip (z : Z) (rest : list Token) :
  (0 <= z)%Z ->
  String.length (repr_int z) <= int_max_str_digits ->
  (_lex (repr_int z) = [mkToken NUMBER (repr_int z)]
   /\ int (repr_int z) = Ok z
   /\ numeric_literal (mkToken NUMBER (repr_int z) :: rest) = Ok (NumericLiteral z, rest)
   /\ (v <- create_expression (NumericLiteral z) ;; Ok (str v)) = Ok (repr_int z))
  /\ (forall digits : string,
        all_chars is_digit digits = true ->
        int_max_str_digits < String.length digits ->
        _lex digits = [mkToken NUMBER digits]
        /\ numeric_literal (mkToken NUMBER digits :: rest) = Raise ValueError).
Proof.
  intros H Hb. destruct (repr_int_digits z H) as [Hne Hd].
  split.
  - split; [exact (lex_digits _ Hne Hd)|].
    split; [exact (int_repr_int z H Hb)|].
    split; [|reflexivity].
    unfold numeric_literal.
    rewrite (pbind_ok _ _ _ _ _ (consume_head NUMBER (repr_int z) rest)).
    cbn [value]. rewrite (int_repr_int z H Hb). reflexivity.
  - intros digits Hdigits Hlong. split.
    + apply lex_digits; [|exact Hdigits].
      intro E. subst digits. inversion Hlong.
    + unfold numeric_literal.
      rewrite (pbind_ok _ _ _ _ _ (consume_head NUMBER digits rest)).
      cbn [value]. rewrite (int_above_the_bound digits Hlong). reflexivity.
Qed.

Lemma decimal_integer_round_trip_witness :
  let sevens := string_of_list_ascii (repeat "7"%char 4301) in
  ((0 <= 2024)%Z
   /\ String.length (repr_int 2024) <= int_max_str_digits
   /\ _lex "2024" = [mkToken NUMBER "2024"]
   /\ int "2024" = Ok 2024%Z
   /\ numeric_literal [mkToken NUMBER "2024"] = Ok (NumericLiteral 2024, [])
   /\ (v <- create_expression (NumericLiteral 2024) ;; Ok (str v)) = Ok "2024")
  /\ (all_chars is_digit sevens = true
      /\ int_max_str_digits < String.length sevens
      /\ _lex sevens = [mkToken NUMBER sevens]
      /\ numeric_literal [mkToken NUMBER sevens] = Raise ValueError).
Proof.
  intro sevens.
  assert (Hz : (0 <= 2024)%Z) by lia.
  assert (Hb : String.length (repr_int 2024) <= int_max_str_digits).
  { apply Nat.leb_le. reflexivity. }
  assert (Hd : all_chars is_digit sevens = true) by (vm_compute; reflexivity).
  assert (Hl : int_max_str_digits < String.length sevens).
  { apply Nat.ltb_lt. vm_compute. reflexivity. }
  destruct (decimal_integer_round_trip 2024 [] Hz Hb) as [Hround Hlong].
  split.
  - split; [exact Hz|]. split; [exact Hb|]. exact Hround.
  - split; [exact Hd|]. split; [exact Hl|]. exact (Hlong sevens Hd Hl).
Defined.

(** ** The generator: identifiers *)

Lemma split_on_not_nil (sep : ascii) (s cur : string) : split_on sep cur s <> [].
Proof.
  revert cur. induction s as [|c s IH]; intro cur; simpl; [discriminate|].
  destruct (Ascii.eqb c sep); [discriminate|apply IH].
Qed.

Lemma append_assoc (a b c : string) : (a ++ b) ++ c = a ++ (b ++ c).
Proof. induction a as [|x a IH]; simpl; [reflexivity|]. rewrite IH. reflexivity. Qed.

(** Joining what [split] has cut gives the string back. *)
Lemma join_split_on (sep : ascii) (s cur : string) :
  join (String sep "") (split_on sep cur s) = cur ++ s.
Proof.
  revert cur. induction s as [|c s IH]; intro cur; cbn [split_on].
  - simpl. rewrite append_empty_r. reflexivity.
  - destruct (Ascii.eqb c sep) eqn:E.
    + apply Ascii.eqb_eq in E. subst c.
      cbn [join]. destruct (split_on sep "" s) as [|x tl] eqn:Es.
      * exfalso. exact (split_on_not_nil sep s "" Es).
      * rewrite <- Es, IH. reflexivity.
    + rewrite IH, append_assoc. reflexivity.
Qed.

Lemma split_on_dotless (s cur : string) :
  dotless s = true -> split_on dot cur s = [cur ++ s].
Proof.
  revert cur. induction s as [|c s IH]; intros cur H; cbn [split_on].
  - rewrite append_empty_r. reflexivity.
  - unfold dotless in H. cbn [all_chars] in H.
    apply andb_true_iff in H. destruct H as [Hc Hs].
    apply negb_true_iff in Hc. rewrite Hc, (IH _ Hs), append_assoc. reflexivity.
Qed.

Lemma split_on_first_dot (a rest cur : string) :
  dotless a = true ->
  split_on dot cur (a ++ String dot rest) = (cur ++ a) :: split_on dot "" rest.
Proof.
  revert cur. induction a as [|c a IH]; intros cur H.
  - change ("" ++ String dot rest) with (String dot rest).
    change (split_on dot cur (String dot rest))
      with (if Ascii.eqb dot dot then cur :: split_on dot "" rest
            else split_on dot (cur ++ String dot "") rest).
    rewrite Ascii.eqb_refl, append_empty_r. reflexivity.
  - unfold dotless in H. cbn [all_chars] in H.
    apply andb_true_iff in H. destruct H as [Hc Ha].
    apply negb_true_iff in Hc.
    change (String c a ++ String dot rest) with (String c (a ++ String dot rest)).
    change (split_on dot cur (String c (a ++ String dot rest)))
      with (if Ascii.eqb c dot then cur :: split_on dot "" (a ++ String dot rest)
            else split_on dot (cur ++ String c "") (a ++ String dot rest)).
    rewrite Hc, (IH _ Ha), append_assoc. reflexivity.
Qed.

Lemma create_expression_identifier (d : list (string * pyobj)) (v : string) :
  lookup "type" d = Some (PStr "IdentifierExpression") ->
  lookup "value" d = Some (PStr v) ->
  create_expression (PDict d)
  = if Nat.eqb (length (split dot v)) 1 then Ok (PStr v)
    else Ok (PStr (hd "" (split dot v) ++ "['"
                   ++ join "." (tl (split dot v)) ++ "']")).
Proof.
  intros Ht Hv. rewrite create_expression_unfold.
  unfold Body.create_expression, getitem. rewrite Ht. simpl.
  unfold Body.create_identifier_expression, getitem. rewrite Hv. reflexivity.
Qed.

(** X9. An identifier without a dot is rendered as it is; an identifier
    [a.rest], where [a] has no dot, is rendered as [a['rest']], the dots of
    [rest] being kept. *)
Theorem identifier_rendering (a rest : string) :
  dotless a = true ->
  create_expression (IdentifierExpression a) = Ok (PStr a)
  /\ create_expression (DottedIdentifier (a ++ "." ++ rest) a)
     = Ok (PStr (a ++ "['" ++ rest ++ "']")).
Proof.
  intro H. split.
  - unfold IdentifierExpression.
    erewrite create_expression_identifier; [|reflexivity|reflexivity].
    unfold split. rewrite (split_on_dotless a "" H). reflexivity.
  - unfold DottedIdentifier.
    erewrite create_expression_identifier; [|reflexivity|reflexivity].
    unfold split. change (a ++ "." ++ rest) with (a ++ String dot rest).
    rewrite (split_on_first_dot a rest "" H).
    cbn [length Nat.eqb hd tl append].
    destruct (split_on dot "" rest) as [|x tl] eqn:E;
      [exfalso; exact (split_on_not_nil dot rest "" E)|].
    cbn [length Nat.eqb]. rewrite <- E.
    change "." with (String dot "").
    rewrite (join_split_on dot rest ""). reflexivity.
Qed.

Lemma identifier_rendering_witness :
  create_expression (IdentifierExpression "t") = Ok (PStr "t")
  /\ create_expression (DottedIdentifier "t.a.b" "t") = Ok (PStr "t['a.b']").
Proof. exact (identifier_rendering "t" "a.b" eq_refl). Defined.

(** ** The generator: operators *)

(** X10. A binary expression whose operands render is rendered with its
    operands in parentheses and [&] for [and], [|] for [or]; with any
    operator other than [and], [or] and [!=] it is rendered as
    [left operator right], without parentheses. *)
Theorem binary_rendering (operator : string) (left right lv rv : pyobj) :
  create_expression left = Ok lv ->
  create_expression right = Ok rv ->
  create_expression (BinaryExpression "and" left right)
  = Ok (PStr ("(" ++ str lv ++ ") & (" ++ str rv ++ ")"))
  /\ create_expression (BinaryExpression "or" left right)
     = Ok (PStr ("(" ++ str lv ++ ") | (" ++ str rv ++ ")"))
  /\ (operator <> "and" -> operator <> "or" -> operator <> "!=" ->
      create_expression (BinaryExpression operator left right)
      = Ok (PStr (str lv ++ " " ++ operator ++ " " ++ str rv))).
Proof.
  intros Hl Hr.
  assert (G : forall op,
             create_expression (BinaryExpression op left right)
             = (if is_str (PStr op) "!=" && negb (truthy rv)
                then Ok (PStr ("" ++ str lv ++ "" ++ ".isNotNull()"))
                else
                  let '(left_paren, right_paren) :=
                    if is_str (PStr op) "and" || is_str (PStr op) "or"
                    then ("(", ")") else ("", "") in
                  Ok (PStr (left_paren ++ str lv ++ right_paren ++ " "
                            ++ str (create_operator (PStr op)) ++ " "
                            ++ left_paren ++ str rv ++ right_paren)))).
  { intro op. rewrite create_expression_unfold.
    unfold Body.create_expression, BinaryExpression. simpl.
    unfold Body.create_binary_expression.
    rewrite !item_then_getitem. simpl. rewrite Hl, Hr. reflexivity. }
  split; [|split].
  - rewrite G. reflexivity.
  - rewrite G. reflexivity.
  - intros Ha Ho Hn. rewrite G.
    apply String.eqb_neq in Ha, Ho, Hn.
    unfold is_str, create_operator, Body.create_operator, is_str.
    rewrite Ha, Ho, Hn. cbn [andb orb str append].
    rewrite append_empty_r. reflexivity.
Qed.

Lemma binary_rendering_witness :
  let a := IdentifierExpression "a" in
  let b := IdentifierExpression "b" in
  create_expression (BinaryExpression "and" a b) = Ok (PStr "(a) & (b)")
  /\ create_expression (BinaryExpression "or" a b) = Ok (PStr "(a) | (b)")
  /\ create_expression (BinaryExpression ">" a b) = Ok (PStr "a > b").
Proof.
  destruct (binary_rendering ">" (IdentifierExpression "a") (IdentifierExpression "b")
              (PStr "a") (PStr "b") eq_refl eq_refl) as [H1 [H2 H3]].
  split; [exact H1|]. split; [exact H2|].
  apply H3; discriminate.
Defined.

(** ** The generator: function calls *)

Lemma create_expression_functional (name : string) (args : list pyobj) :
  create_expression (FunctionalExpression name args)
  = (vs <- mapM create_expression args ;;
     joined <- str_join "," vs ;;
     Ok (PStr (name ++ "(" ++ joined ++ ")"))).
Proof.
  rewrite create_expression_unfold.
  unfold Body.create_expression, FunctionalExpression. simpl.
  unfold Body.create_functional_expression. simpl.
  fold create_expression.
  change (mapM create_expression args)
    with (each_then create_expression Body.on_str (PList args)).
  reflexivity.
Qed.

Lemma strings_of_not_str (vs : list pyobj) (v : pyobj) :
  In v vs -> (forall s, v <> PStr s) -> strings_of vs = Raise TypeError.
Proof.
  intros Hin Hv. induction vs as [|x vs IH]; [contradiction|].
  destruct Hin as [->|Hin].
  - destruct v; try reflexivity. exfalso. exact (Hv s eq_refl).
  - destruct x; try reflexivity. simpl. rewrite (IH Hin). reflexivity.
Qed.

(** X11. A function call whose arguments all render to strings is rendered
    as the name followed by the arguments between parentheses, separated by
    commas.  When the arguments all render but one of them to something
    that is not a string, a number or [None], the generator raises
    TypeError. *)
Theorem functional_rendering (name : string) (args : list pyobj) (vs : list pyobj) :
  mapM create_expression args = Ok vs ->
  (forall ss, vs = map PStr ss ->
     create_expression (FunctionalExpression name args)
     = Ok (PStr (name ++ "(" ++ join "," ss ++ ")")))
  /\ (forall v, In v vs -> (forall s, v <> PStr s) ->
        create_expression (FunctionalExpression name args) = Raise TypeError).
Proof.
  intro H. rewrite create_expression_functional, H. cbn [bind]. unfold str_join.
  split.
  - intros ss ->. rewrite strings_of_map_PStr. reflexivity.
  - intros v Hin Hv. rewrite (strings_of_not_str vs v Hin Hv). reflexivity.
Qed.

Lemma functional_rendering_witness :
  create_expression
    (FunctionalExpression "sum" [IdentifierExpression "a"; DottedIdentifier "t.b" "t"])
  = Ok (PStr "sum(a,t['b'])")
  /\ create_expression
       (FunctionalExpression "count" [IdentifierExpression "a"; NumericLiteral 1])
     = Raise TypeError.
Proof.
  split.
  - apply (proj1 (functional_rendering "sum"
                    [IdentifierExpression "a"; DottedIdentifier "t.b" "t"]
                    [PStr "a"; PStr "t['b']"] eq_refl) ["a"; "t['b']"]).
    reflexivity.
  - apply (proj2 (functional_rendering "count"
                    [IdentifierExpression "a"; NumericLiteral 1]
                    [PStr "a"; PInt 1] eq_refl) (PInt 1)).
    + right. left. reflexivity.
    + intros s E. discriminate E.
Defined.

(** ** The generator: nodes it does not know *)

(** X12. On a node whose type is none of those that [create_expression] and
    [create_literal] test for, among them the nodes that the parser builds
    for a unary operation, a partition and a projection, the generator
    returns [None] and raises nothing; on a dictionary without the key
    [type] it raises KeyError. *)
Theorem unhandled_node_renders_None (d : list (string * pyobj)) :
  (forall ty, lookup "type" d = Some ty ->
     (forall s, In s handled -> is_str ty s = false) ->
     create_expression (PDict d) = Ok PNone)
  /\ (lookup "type" d = None -> create_expression (PDict d) = Raise KeyError).
Proof.
  split.
  - intros ty Ht H. rewrite create_expression_unfold.
    unfold Body.create_expression, Body.create_literal, getitem. rewrite Ht.
    cbn [bind].
    rewrite !H by (simpl; tauto). reflexivity.
  - intro Ht. rewrite create_expression_unfold.
    unfold Body.create_expression, getitem. rewrite Ht. reflexivity.
Qed.

Lemma unhandled_node_renders_None_witness :
  create_expression
    (PDict [("type", PStr "unary_expression"); ("operator", PStr "-");
            ("argument", IdentifierExpression "a")])
  = Ok PNone
  /\ create_expression (PDict [("value", PStr "a")]) = Raise KeyError.
Proof.
  split.
  - apply (proj1 (unhandled_node_renders_None
                    [("type", PStr "unary_expression"); ("operator", PStr "-");
                     ("argument", IdentifierExpression "a")])
             (PStr "unary_expression") eq_refl).
    intros s H. simpl in H.
    repeat (destruct H as [<-|H]; [reflexivity|]). contradiction.
  - apply (proj2 (unhandled_node_renders_None [("value", PStr "a")])). reflexivity.
Defined.

(** ** The generator: statements *)

(** X13. [transform] renders the variable assignments and the projections
    only: a program whose statements are all of other types, bare
    expressions, blocks, column or filter lists, is transformed into the
    empty text, whatever these statements hold. *)
Theorem other_statements_are_not_rendered (items : list pyobj) :
  Forall not_rendered_at_top items ->
  transform (StatementList items) = Ok "".
Proof.
  intro H. unfold transform, StatementList. simpl.
  assert (E : mapM transform_item items = Ok (map (fun _ => []) items)).
  { induction H as [|item items [d [ty [-> [Ht [H1 H2]]]]] _ IH]; [reflexivity|].
    cbn [mapM map]. unfold transform_item at 1, getitem. rewrite Ht. cbn [bind].
    rewrite H1, H2. cbn [bind app]. rewrite IH. reflexivity. }
  rewrite E. cbn [bind].
  assert (C : concat (map (fun _ : pyobj => @nil string) items) = []).
  { clear. induction items as [|x items IH]; [reflexivity|exact IH]. }
  rewrite C. reflexivity.
Qed.

Lemma other_statements_are_not_rendered_witness :
  transform
    (StatementList
       [ColumnAssignmentList [IdentifierExpression "a"];
        BlockStatement PNone []])
  = Ok "".
Proof.
  apply other_statements_are_not_rendered.
  constructor; [|constructor; [|constructor]].
  - eexists; eexists. split; [reflexivity|]. split; [reflexivity|].
    split; reflexivity.
  - eexists; eexists. split; [reflexivity|]. split; [reflexivity|].
    split; reflexivity.
Defined.

(** X14. A variable whose value is an expression that renders is rendered as
    [name = (], the text of the expression, [.alias('name')] and [)], each
    on its line; an expression that renders to [None] puts the text [None]
    there. *)
Theorem variable_assignment_rendering (name : string) (d : list (string * pyobj))
    (ty rv : pyobj) :
  lookup "type" d = Some ty ->
  is_str ty "BlockStatement" = false ->
  is_str ty "ProjectExpression" = false ->
  create_expression (PDict d) = Ok rv ->
  create_variable_assignment (VariableAssignment name (PDict d))
  = Ok (name ++ " = (" ++ newline ++ str rv ++ newline
        ++ ".alias('" ++ name ++ "')" ++ newline ++ ")" ++ newline)
  /\ transform (StatementList [VariableAssignment name (PDict d)])
     = Ok (name ++ " = (" ++ newline ++ str rv ++ newline
           ++ ".alias('" ++ name ++ "')" ++ newline ++ ")" ++ newline).
Proof.
  intros Ht H1 H2 Hr.
  assert (E : create_variable_assignment (VariableAssignment name (PDict d))
              = Ok (name ++ " = (" ++ newline ++ str rv ++ newline
                    ++ ".alias('" ++ name ++ "')" ++ newline ++ ")" ++ newline)).
  { unfold create_variable_assignment, VariableAssignment.
    cbn [getitem lookup String.eqb Ascii.eqb Bool.eqb bind].
    rewrite Ht. cbn [bind]. rewrite H1, H2, Hr. reflexivity. }
  split; [exact E|].
  unfold transform, StatementList.
  cbn [getitem lookup String.eqb Ascii.eqb Bool.eqb bind iter mapM].
  unfold transform_item.
  change (getitem (VariableAssignment name (PDict d)) "type")
    with (@Ok pyobj (PStr "VariableAssignment")).
  cbn [bind is_str String.eqb Ascii.eqb Bool.eqb].
  rewrite E. reflexivity.
Qed.

Lemma variable_assignment_rendering_witness :
  let negation :=
    [("type", PStr "unary_expression"); ("operator", PStr "-");
     ("argument", IdentifierExpression "a")] in
  create_variable_assignment (VariableAssignment "x" (PDict negation))
  = Ok ("x = (" ++ newline ++ "None" ++ newline ++ ".alias('x')" ++ newline
        ++ ")" ++ newline)
  /\ transform (StatementList [VariableAssignment "x" (PDict negation)])
     = Ok ("x = (" ++ newline ++ "None" ++ newline ++ ".alias('x')" ++ newline
           ++ ")" ++ newline).
Proof.
  exact (variable_assignment_rendering "x"
           [("type", PStr "unary_expression"); ("operator", PStr "-");
            ("argument", IdentifierExpression "a")]
           (PStr "unary_expression") PNone eq_refl eq_refl eq_refl eq_refl).
Defined.

(** X15. The text of a block is put together from its parts: the source
    table that the search returns, [.select(] with the column assignments
    separated by a comma and a new line, the filter statements each on its
    line after a dot, when there are some, and the modifier as a call
    without argument, when there is one. *)
Theorem block_rendering (modifier first source_table : pyobj)
    (more filters : list pyobj) (assignments filter_stmts : list string) :
  get_source_table first = Ok source_table ->
  mapM create_assignment (first :: more) = Ok (map PStr assignments) ->
  mapM create_filter filters = Ok (map PStr filter_stmts) ->
  create_block_statement
    (BlockStatement modifier
       (ColumnAssignmentList (first :: more) :: filter_part filters))
  = Ok (block_text source_table assignments filter_stmts modifier).
Proof.
  intros Hsearch Hassign Hfilters.
  unfold create_block_statement, BlockStatement, ColumnAssignmentList, block_text.
  cbn [getitem lookup String.eqb Ascii.eqb Bool.eqb getindex nth_error bind iter len].
  rewrite Hsearch. cbn [bind]. rewrite Hassign. cbn [bind].
  unfold str_join. rewrite strings_of_map_PStr. cbn [bind].
  destruct filters as [|f filters'].
  - cbn [mapM] in Hfilters. destruct filter_stmts; [|discriminate Hfilters].
    cbn [filter_part length Nat.ltb Nat.leb bind iter mapM strings_of join].
    cbn [truthy String.eqb negb get_modifier lookup Ascii.eqb Bool.eqb bind].
    destruct (truthy modifier); reflexivity.
  - cbn [filter_part length Nat.ltb Nat.leb getindex nth_error bind].
    unfold FilterStatementList.
    cbn [getitem lookup String.eqb Ascii.eqb Bool.eqb bind iter].
    rewrite Hfilters. cbn [bind]. rewrite strings_of_map_PStr. cbn [bind].
    cbn [get_modifier lookup String.eqb Ascii.eqb Bool.eqb bind truthy].
    destruct (String.eqb (join (newline ++ ".") filter_stmts) "");
      cbn [negb]; destruct (truthy modifier); reflexivity.
Qed.

Lemma block_rendering_witness :
  create_block_statement
    (BlockStatement (PStr "distinct")
       [ColumnAssignmentList
          [ColumnAssignmentStatement (IdentifierExpression "a")
             (DottedIdentifier "t.b" "t")];
        FilterStatementList
          [FilterStatement "where"
             (BinaryExpression ">" (IdentifierExpression "a") (NumericLiteral 1))]])
  = Ok ("t.select(" ++ newline ++ "t['b'].alias('a')" ++ newline ++ ")" ++ newline
        ++ ".filter(a > 1)." ++ newline ++ "distinct()").
Proof.
  exact (block_rendering (PStr "distinct")
           (ColumnAssignmentStatement (IdentifierExpression "a")
              (DottedIdentifier "t.b" "t"))
           (PStr "t") []
           [FilterStatement "where"
              (BinaryExpression ">" (IdentifierExpression "a") (NumericLiteral 1))]
           ["t['b'].alias('a')"] ["filter(a > 1)"]
           eq_refl eq_refl eq_refl).
Defined.

(** X16. A block without statements cannot be generated: whatever its
    modifier, the generator raises IndexError when it looks for the column
    assignments, and so does the rendering of a variable bound to it. *)
Theorem empty_block_raises_IndexError (modifier : pyobj) (name : string) :
  create_block_statement (BlockStatement modifier []) = Raise IndexError
  /\ create_variable_assignment (VariableAssignment name (BlockStatement modifier []))
     = Raise IndexError
  /\ transform (StatementList [VariableAssignment name (BlockStatement modifier [])])
     = Raise IndexError
  /\ parse "let x = { }"
     = Ok (StatementList [VariableAssignment "x" (BlockStatement PNone [])])
  /\ parse "let x = { distinct }"
     = Ok (StatementList [VariableAssignment "x" (BlockStatement (PStr "distinct") [])]).
Proof.
  split; [reflexivity|]. split; [reflexivity|]. split; [reflexivity|].
  split; vm_compute; reflexivity.
Qed.

(** ** The generator: filters *)

Lemma create_column_assignment_list_strings (cols : list pyobj) (ss : list string) :
  mapM create_expression cols = Ok (map PStr ss) ->
  create_column_assignment_list (ColumnAssignmentList cols) = Ok (PStr (join "," ss)).
Proof.
  intro H. unfold create_column_assignment_list, ColumnAssignmentList.
  cbn [getitem lookup String.eqb Ascii.eqb Bool.eqb bind iter].
  rewrite H. cbn [bind]. unfold str_join. rewrite strings_of_map_PStr. reflexivity.
Qed.

(** X17. A filter statement is rendered by its keyword: [where] as
    [filter(...)] and [having] as [agg(...)] around the rendering of its
    expression, [group by] as [groupBy(...)] around the renderings of its
    columns separated by commas; with any other keyword [create_filter]
    returns [None] and raises nothing. *)
Theorem filter_rendering (keyword : string) (body rv : pyobj) (cols : list pyobj)
    (ss : list string) :
  create_expression body = Ok rv ->
  mapM create_expression cols = Ok (map PStr ss) ->
  create_filter (FilterStatement "where" body) = Ok (PStr ("filter(" ++ str rv ++ ")"))
  /\ create_filter (FilterStatement "having" body) = Ok (PStr ("agg(" ++ str rv ++ ")"))
  /\ create_filter (FilterStatement "group by" (ColumnAssignmentList cols))
     = Ok (PStr ("groupBy(" ++ join "," ss ++ ")"))
  /\ (keyword <> "where" -> keyword <> "having" -> keyword <> "group by" ->
      create_filter (FilterStatement keyword body) = Ok PNone).
Proof.
  intros Hb Hc. repeat split.
  - unfold create_filter, FilterStatement.
    cbn [getitem lookup String.eqb Ascii.eqb Bool.eqb bind is_str].
    rewrite Hb. reflexivity.
  - unfold create_filter, FilterStatement.
    cbn [getitem lookup String.eqb Ascii.eqb Bool.eqb bind is_str].
    rewrite Hb. reflexivity.
  - unfold create_filter, FilterStatement.
    cbn [getitem lookup String.eqb Ascii.eqb Bool.eqb bind is_str].
    rewrite (create_column_assignment_list_strings cols ss Hc). reflexivity.
  - intros H1 H2 H3. apply String.eqb_neq in H1, H2, H3.
    unfold create_filter, FilterStatement.
    cbn [getitem lookup String.eqb Ascii.eqb Bool.eqb bind].
    unfold is_str. rewrite H1, H2, H3. reflexivity.
Qed.

Lemma filter_rendering_witness :
  let cond := BinaryExpression ">" (IdentifierExpression "a") (NumericLiteral 1) in
  create_filter (FilterStatement "where" cond) = Ok (PStr "filter(a > 1)")
  /\ create_filter (FilterStatement "having" cond) = Ok (PStr "agg(a > 1)")
  /\ create_filter
       (FilterStatement "group by"
          (ColumnAssignmentList [IdentifierExpression "b"; IdentifierExpression "c"]))
     = Ok (PStr "groupBy(b,c)")
  /\ create_filter (FilterStatement "on" cond) = Ok PNone.
Proof.
  destruct (filter_rendering "on"
              (BinaryExpression ">" (IdentifierExpression "a") (NumericLiteral 1))
              (PStr "a > 1")
              [IdentifierExpression "b"; IdentifierExpression "c"] ["b"; "c"]
              eq_refl eq_refl) as [H1 [H2 [H3 H4]]].
  split; [exact H1|]. split; [exact H2|]. split; [exact H3|].
  apply H4; discriminate.
Defined.

(** ** The generator: the search for the source table *)

(** X18. The search goes through the fields in the order in which the parser
    wrote them, and the first table wins: in a column assignment the name
    comes before the value, in a binary expression the left operand before
    the right one.  When the first of the two holds a table the other is
    not looked at; when it holds none, the search goes on in the other. *)
Theorem source_table_search_order (dl dr : list (string * pyobj)) (res : pyobj)
    (operator : string) :
  get_source_table (PDict dl) = Ok res ->
  (truthy res = true ->
   get_source_table (ColumnAssignmentStatement (PDict dl) (PDict dr)) = Ok res
   /\ get_source_table (BinaryExpression operator (PDict dl) (PDict dr)) = Ok res)
  /\ (truthy res = false ->
      get_source_table (ColumnAssignmentStatement (PDict dl) (PDict dr))
      = (r <- get_source_table (PDict dr) ;; if truthy r then Ok r else Ok PNone)
      /\ get_source_table (BinaryExpression operator (PDict dl) (PDict dr))
         = (r <- get_source_table (PDict dr) ;; if truthy r then Ok r else Ok PNone)).
Proof.
  intro H. split; intro Ht.
  - split.
    + unfold ColumnAssignmentStatement. simpl. simpl in H. rewrite H. cbn [bind].
      rewrite Ht. reflexivity.
    + unfold BinaryExpression. simpl. simpl in H. rewrite H. cbn [bind].
      rewrite Ht. reflexivity.
  - split.
    + unfold ColumnAssignmentStatement. simpl. simpl in H. rewrite H. cbn [bind].
      rewrite Ht. reflexivity.
    + unfold BinaryExpression. simpl. simpl in H. rewrite H. cbn [bind].
      rewrite Ht. reflexivity.
Qed.

Lemma source_table_search_order_witness :
  get_source_table
    (ColumnAssignmentStatement (DottedIdentifier "t.a" "t") (DottedIdentifier "u.b" "u"))
  = Ok (PStr "t")
  /\ get_source_table
       (BinaryExpression "==" (DottedIdentifier "t.a" "t") (DottedIdentifier "u.b" "u"))
     = Ok (PStr "t")
  /\ get_source_table
       (ColumnAssignmentStatement (IdentifierExpression "a") (DottedIdentifier "u.b" "u"))
     = Ok (PStr "u").
Proof.
  pose proof (source_table_search_order
                [("type", PStr "IdentifierExpression"); ("value", PStr "t.a");
                 ("source_table", PStr "t")]
                [("type", PStr "IdentifierExpression"); ("value", PStr "u.b");
                 ("source_table", PStr "u")]
                (PStr "t") "==" eq_refl) as [H _].
  pose proof (source_table_search_order
                [("type", PStr "IdentifierExpression"); ("value", PStr "a")]
                [("type", PStr "IdentifierExpression"); ("value", PStr "u.b");
                 ("source_table", PStr "u")]
                PNone "==" eq_refl) as [_ H'].
  destruct (H eq_refl) as [H1 H2]. destruct (H' eq_refl) as [H3 _].
  split; [exact H1|]. split; [exact H2|exact H3].
Defined.

(** ** The generator: cases, membership, literals *)

(** X19. A case whose condition is the identifier [_] is rendered as
    [otherwise(value)]; a case whose condition is of another type than an
    identifier is rendered as [when(condition, value)]; and a match is
    rendered as its cases, each on its line after a dot. *)
Theorem case_and_match_rendering (dc : list (string * pyobj)) (tc v rc rv : pyobj)
    (cases : list pyobj) (ss : list string) :
  create_expression v = Ok rv ->
  create_expression (PDict dc) = Ok rc ->
  lookup "type" dc = Some tc ->
  is_str tc "IdentifierExpression" = false ->
  mapM create_expression cases = Ok (map PStr ss) ->
  create_expression (CaseExpression (IdentifierExpression "_") v)
  = Ok (PStr ("otherwise(" ++ str rv ++ ")"))
  /\ create_expression (CaseExpression (PDict dc) v)
     = Ok (PStr ("when(" ++ newline ++ str rc ++ ", " ++ str rv ++ newline ++ ")"))
  /\ create_expression (MatchExpression cases)
     = Ok (PStr (join (newline ++ ".") ss)).
Proof.
  intros Hv Hc Ht Hi Hm. repeat split.
  - rewrite create_expression_unfold.
    unfold Body.create_expression, CaseExpression. simpl.
    unfold Body.create_case_expression.
    rewrite !item_then_getitem. simpl. rewrite Hv. reflexivity.
  - rewrite create_expression_unfold.
    unfold Body.create_expression, CaseExpression. simpl.
    unfold Body.create_case_expression.
    rewrite !item_then_getitem. simpl. rewrite Ht. cbn [bind].
    rewrite Hi. cbn [bind].
    simpl in Hc. rewrite Hc. cbn [bind]. rewrite Hv. reflexivity.
  - rewrite create_expression_unfold.
    unfold Body.create_expression, MatchExpression. simpl.
    unfold Body.create_match_expression. simpl.
    fold create_expression.
    change (each_then create_expression Body.on_str (PList cases))
      with (mapM create_expression cases).
    rewrite Hm. cbn [bind]. unfold str_join. rewrite strings_of_map_PStr.
    reflexivity.
Qed.

Lemma case_and_match_rendering_witness :
  let cond := BinaryExpression ">" (IdentifierExpression "a") (NumericLiteral 1) in
  create_expression (CaseExpression (IdentifierExpression "_") (IdentifierExpression "c"))
  = Ok (PStr "otherwise(c)")
  /\ create_expression (CaseExpression cond (IdentifierExpression "c"))
     = Ok (PStr ("when(" ++ newline ++ "a > 1, c" ++ newline ++ ")"))
  /\ create_expression
       (MatchExpression
          [CaseExpression cond (IdentifierExpression "c");
           CaseExpression (IdentifierExpression "_") (IdentifierExpression "c")])
     = Ok (PStr ("when(" ++ newline ++ "a > 1, c" ++ newline ++ ")" ++ newline
                 ++ ".otherwise(c)")).
Proof.
  exact (case_and_match_rendering
           [("type", PStr "BinaryExpression"); ("operator", PStr ">");
            ("left", IdentifierExpression "a"); ("right", NumericLiteral 1)]
           (PStr "BinaryExpression") (IdentifierExpression "c")
           (PStr "a > 1") (PStr "c")
           [CaseExpression
              (BinaryExpression ">" (IdentifierExpression "a") (NumericLiteral 1))
              (IdentifierExpression "c");
            CaseExpression (IdentifierExpression "_") (IdentifierExpression "c")]
           ["when(" ++ newline ++ "a > 1, c" ++ newline ++ ")"; "otherwise(c)"]
           eq_refl eq_refl eq_refl eq_refl eq_refl).
Defined.

Lemma array_text (items : list literal) :
  forallb lexed_literal items = true ->
  create_expression (ArrayExpression (map literal_node items))
  = Ok (PStr ("[" ++ join ", " (map (fun l => "'" ++ literal_text l ++ "'") items)
              ++ "]")).
Proof.
  intro H. rewrite create_expression_array.
  rewrite (map_ext_in (fun l => repr_str (literal_text l))
             (fun l => "'" ++ literal_text l ++ "'") items); [reflexivity|].
  intros l Hl. apply repr_str_plain, literal_text_plain.
  rewrite forallb_forall in H. exact (H l Hl).
Qed.

(** X20. A membership test in an array of literals is rendered as the left
    operand followed by [.isin(] and the list of the items between single
    quotes. *)
Theorem membership_in_array_rendering (left lv : pyobj) (items : list literal) :
  create_expression left = Ok lv ->
  forallb lexed_literal items = true ->
  create_expression (MembershipExpression left (ArrayExpression (map literal_node items)))
  = Ok (PStr (str lv ++ ".isin(["
              ++ join ", " (map (fun l => "'" ++ literal_text l ++ "'") items)
              ++ "])")).
Proof.
  intros Hl Hi. rewrite create_expression_unfold.
  unfold Body.create_expression, MembershipExpression. simpl.
  unfold Body.create_membership_expression.
  rewrite !item_then_getitem. simpl. rewrite Hl. cbn [bind].
  pose proof (array_text items Hi) as Ha.
  unfold ArrayExpression in Ha. simpl in Ha. rewrite Ha. cbn [bind str].
  simpl. rewrite append_assoc. reflexivity.
Qed.

Lemma membership_in_array_rendering_witness :
  create_expression
    (MembershipExpression (IdentifierExpression "a")
       (ArrayExpression [NumericLiteral 1; StringLiteral "abc"]))
  = Ok (PStr "a.isin(['1', 'abc'])").
Proof.
  exact (membership_in_array_rendering (IdentifierExpression "a") (PStr "a")
           [LNumber 1; LString "abc"] eq_refl eq_refl).
Defined.

(** ** The generator: joins *)

Lemma create_expression_dotless (a : string) :
  dotless a = true -> create_expression (IdentifierExpression a) = Ok (PStr a).
Proof.
  intro H. unfold IdentifierExpression.
  erewrite create_expression_identifier; [|reflexivity|reflexivity].
  unfold split. rewrite (split_on_dotless a "" H). reflexivity.
Qed.

Lemma create_join_is_create_expression (join_type : string) (l r c : pyobj) :
  create_join (JoinExpression join_type l r c)
  = create_expression (JoinExpression join_type l r c).
Proof. rewrite create_join_unfold, create_expression_unfold. reflexivity. Qed.

Lemma join_step_text_eq (s : join_step) :
  join_step_text s
  = ".join(" ++ step_table s ++ ", on=" ++ step_condition s ++ ", how="
    ++ String dquote (step_type s ++ String dquote ")").
Proof.
  unfold join_step_text, quoted.
  change (String dquote (step_type s ++ String dquote "") ++ ")")
    with (String dquote ((step_type s ++ String dquote "") ++ ")")).
  rewrite append_assoc. reflexivity.
Qed.

Lemma create_expression_first_join (a : string) (s : join_step) :
  dotless (step_condition s) = true ->
  create_expression
    (JoinExpression (step_type s) (IdentifierExpression a)
       (IdentifierExpression (step_table s)) (IdentifierExpression (step_condition s)))
  = Ok (PStr (a ++ join_step_text s)).
Proof.
  intro H. rewrite create_expression_unfold.
  unfold Body.create_expression, JoinExpression. simpl.
  unfold Body.create_join. rewrite !item_then_getitem. simpl.
  pose proof (create_expression_dotless _ H) as E. simpl in E. rewrite E.
  rewrite join_step_text_eq. reflexivity.
Qed.

Lemma create_expression_next_join (jt0 : string) (l0 r0 c0 : pyobj) (text : string)
    (s : join_step) :
  create_expression (JoinExpression jt0 l0 r0 c0) = Ok (PStr text) ->
  dotless (step_condition s) = true ->
  create_expression
    (JoinExpression (step_type s) (JoinExpression jt0 l0 r0 c0)
       (IdentifierExpression (step_table s)) (IdentifierExpression (step_condition s)))
  = Ok (PStr (text ++ join_step_text s)).
Proof.
  intros Hl H. rewrite create_expression_unfold.
  unfold Body.create_expression. simpl.
  unfold Body.create_join. rewrite !item_then_getitem. simpl.
  pose proof (create_join_is_create_expression jt0 l0 r0 c0) as Ej.
  rewrite Hl in Ej. simpl in Ej. rewrite Ej. cbn [bind].
  pose proof (create_expression_dotless _ H) as E. simpl in E. rewrite E.
  rewrite join_step_text_eq. reflexivity.
Qed.

Lemma join_tree_is_join (a : string) (s : join_step) (chain : list join_step) :
  exists jt l r c, join_tree a (s :: chain) = JoinExpression jt l r c.
Proof.
  induction chain as [|s' chain IH] using rev_ind.
  - eexists; eexists; eexists; eexists. reflexivity.
  - unfold join_tree. rewrite app_comm_cons, fold_left_app.
    eexists; eexists; eexists; eexists. reflexivity.
Qed.

(** X24. A chain of joins is rendered as a chain of calls, whatever its
    length: the first table, then for each join in turn
    [.join(table, on=condition, how="type")], the tables and the conditions
    being identifiers, the conditions without dots. *)
Theorem join_chain_rendering (a : string) (s : join_step) (chain : list join_step) :
  Forall (fun s => dotless (step_condition s) = true) (s :: chain) ->
  create_expression (join_tree a (s :: chain)) = Ok (PStr (join_text a (s :: chain))).
Proof.
  induction chain as [|s' chain IH] using rev_ind; intro H.
  - inversion H as [|? ? Hs _]; subst.
    exact (create_expression_first_join a s Hs).
  - rewrite app_comm_cons in H. apply Forall_app in H. destruct H as [H Hs'].
    inversion Hs' as [|? ? Hs'' _]; subst. specialize (IH H).
    destruct (join_tree_is_join a s chain) as [jt [l [r [c E]]]].
    assert (Et : join_tree a ((s :: chain) ++ [s'])
                 = JoinExpression (step_type s') (join_tree a (s :: chain))
                     (IdentifierExpression (step_table s'))
                     (IdentifierExpression (step_condition s'))).
    { unfold join_tree. rewrite fold_left_app. reflexivity. }
    assert (Ex : join_text a ((s :: chain) ++ [s'])
                 = join_text a (s :: chain) ++ join_step_text s').
    { unfold join_text. rewrite fold_left_app. reflexivity. }
    rewrite app_comm_cons, Et, Ex. rewrite E in *.
    exact (create_expression_next_join jt l r c _ s' IH Hs'').
Qed.

Lemma join_chain_rendering_witness :
  create_expression
    (JoinExpression "left join"
       (JoinExpression "join" (IdentifierExpression "a") (IdentifierExpression "b")
          (IdentifierExpression "c"))
       (IdentifierExpression "d") (IdentifierExpression "e"))
  = Ok (PStr ("a.join(b, on=c, how=" ++ quoted "join" ++ ").join(d, on=e, how="
              ++ quoted "left join" ++ ")")).
Proof.
  apply (join_chain_rendering "a" (mkJoinStep "join" "b" "on" "c")
           [mkJoinStep "left join" "d" "where" "e"]).
  constructor; [reflexivity|]. constructor; [reflexivity|]. constructor.
Defined.

(** ** The generator: programs *)

(** X28. The text of a program is the texts of its variable assignments, in
    order, separated by new lines. *)
Theorem program_rendering (items : list pyobj) (ss : list string) :
  Forall2 (fun item s =>
             getitem item "type" = Ok (PStr "VariableAssignment")
             /\ create_variable_assignment item = Ok s) items ss ->
  transform (StatementList items) = Ok (join newline ss).
Proof.
  intro H. unfold transform, StatementList.
  cbn [getitem lookup String.eqb Ascii.eqb Bool.eqb bind iter].
  assert (E : mapM transform_item items = Ok (map (fun s => [s]) ss)).
  { induction H as [|item s items ss [Ht Hs] _ IH]; [reflexivity|].
    cbn [mapM map]. unfold transform_item at 1. rewrite Ht. cbn [bind is_str
      String.eqb Ascii.eqb Bool.eqb]. rewrite Hs. cbn [bind app].
    rewrite IH. reflexivity. }
  rewrite E. cbn [bind].
  assert (C : concat (map (fun s : string => [s]) ss) = ss).
  { clear. induction ss as [|s ss IH]; [reflexivity|]. simpl. rewrite IH.
    reflexivity. }
  rewrite C. reflexivity.
Qed.

Lemma program_rendering_witness :
  transform
    (StatementList
       [VariableAssignment "x" (IdentifierExpression "a");
        VariableAssignment "y" (IdentifierExpression "b")])
  = Ok (join newline
          ["x = (" ++ newline ++ "a" ++ newline ++ ".alias('x')" ++ newline ++ ")"
           ++ newline;
           "y = (" ++ newline ++ "b" ++ newline ++ ".alias('y')" ++ newline ++ ")"
           ++ newline]).
Proof.
  apply program_rendering.
  constructor; [split; reflexivity|].
  constructor; [split; reflexivity|]. constructor.
Defined.
